(** * RecipeData: the query-building and pagination contract

    A shallow embedding of the request handlers of the recipe catalog
    ([getRecipes] and the two generations of [searchRecipes] of the
    recipe controller) and of the record normalisation of [seed.js],
    followed by the properties the specification states about them.

    Conventions.
    - [req.query] is a finite map from parameter names to strings
      ([gmap string string]); a parameter that is not in the map is
      JavaScript's [undefined].  The arrays and objects the query parser
      makes of repeated or bracketed parameters are not modelled.
    - A string is a sequence of code units below 256.
    - A JavaScript number is [NaN], an infinity or a rational that is a
      binary64 number ([number]): [parseFloat], the Number value of what
      [parseInt] reads, and the subtraction and the product of the page
      arithmetic round to the nearest binary64, ties to even, and give
      an infinity from [2^1024] on ([round_frac]).  The sign of zero is
      not kept: nothing in the code tells [-0] from [0].  [JS.parseInt]
      is the integer [parseInt(s, 10)] reads ([None] when there is no
      digit) and [JS.of_int] its Number value.  Every digit of a literal
      is read; the standard lets an implementation take the digits after
      the twentieth significant one for zeros.
    - The Mongo filter object is a finite map from keys to conditions
      ([gmap string Entry]): assigning a key twice keeps the last value,
      as assigning a property of a JavaScript object does. *)

From Stdlib Require Import ZArith QArith Ascii String List.
From stdpp Require Import base option gmap strings list fin_maps.

Local Open Scope string_scope.
Local Open Scope Z_scope.

(** ** JavaScript primitives used by the handlers *)

Module JS.

(** A JavaScript number. *)
Inductive number : Type :=
| NaN
| Infinity (negative : bool)
| Finite (q : Q).

Definition isNaN (n : number) : bool :=
  match n with NaN => true | _ => false end.

(** [ToString] of a query parameter: a missing one is [undefined]. *)
Definition ToString (v : option string) : string :=
  match v with Some s => s | None => "undefined" end.

(** Truthiness of a query parameter: [undefined] and the empty string
    are falsy, every other string is truthy. *)
Definition truthy (v : option string) : bool :=
  match v with
  | Some (String _ _) => true
  | _ => false
  end.

(** [v || d] on a string-or-undefined value. *)
Definition or_string (v : option string) (d : string) : string :=
  if truthy v then ToString v else d.

(** Round-half-to-even of [N / D], for [0 <= N] and [0 < D]. *)
Definition round_div (N D : Z) : Z :=
  let k := N / D in
  let r := N mod D in
  if 2 * r <? D then k
  else if D <? 2 * r then k + 1
  else if Z.even k then k else k + 1.

(** The exponent [e] with [2^e <= n / d < 2^(e+1)], for [0 < n], [0 < d]. *)
Definition ilog2 (n d : Z) : Z :=
  let l := Z.log2 n - Z.log2 d in
  if (if 0 <=? l then d * 2 ^ l <=? n else d <=? n * 2 ^ (- l))
  then l else l - 1.

(** The binary64 number nearest to [n / d] ([0 < d]), ties to even: 53
    bits of precision from exponent -1022 up, steps of [2^-1074] below,
    and an infinity from [2^1024] on.  An integer of magnitude at most
    [2^53] is a binary64 number. *)
Definition round_frac (n d : Z) : number :=
  if n =? 0 then Finite 0
  else if (d =? 1) && (Z.abs n <=? 2 ^ 53) then Finite (inject_Z n)
  else
    let a := Z.abs n in
    let u := Z.max (ilog2 a d) (- 1022) - 52 in
    let k := if 0 <=? u then round_div a (d * 2 ^ u)
             else round_div (a * 2 ^ (- u)) d in
    if (0 <=? u) && (2 ^ 1024 <=? k * 2 ^ u) then Infinity (n <? 0)
    else
      let m := if n <? 0 then - k else k in
      Finite (if 0 <=? u then inject_Z (m * 2 ^ u)
              else Qred (Qmake m (Z.to_pos (2 ^ (- u))))).

(** The Number value of a rational. *)
Definition round64 (q : Q) : number :=
  round_frac (Qnum (Qred q)) (Z.pos (Qden (Qred q))).

(** The Number value of what [parseInt] reads: [NaN] without a digit. *)
Definition of_int (n : option Z) : number :=
  match n with
  | Some z => round_frac z 1
  | None => NaN
  end.

(** Falsiness of a number: [NaN] and zero. *)
Definition falsy (n : number) : bool :=
  match n with
  | NaN => true
  | Infinity _ => false
  | Finite q => Qeq_bool q 0
  end.

(** [n || d] on numbers. *)
Definition or_number (n d : number) : number := if falsy n then d else n.

Definition code (c : ascii) : Z := Z.of_N (N_of_ascii c).

(** StrWhiteSpaceChar, for code units below 256: TAB, LF, VT, FF, CR,
    SP and NBSP. *)
Definition is_white (c : ascii) : bool :=
  let n := code c in
  ((9 <=? n) && (n <=? 13)) || (n =? 32) || (n =? 160).

Definition digit_of (c : ascii) : option Z :=
  let n := code c in
  if (48 <=? n) && (n <=? 57) then Some (n - 48) else None.

Fixpoint trim_start (s : string) : string :=
  match s with
  | String c r => if is_white c then trim_start r else s
  | EmptyString => EmptyString
  end.

(** The longest prefix of decimal digits: its value on top of [acc],
    the number of digits read, and the rest of the string. *)
Fixpoint digits (acc : Z) (n : nat) (s : string) : Z * nat * string :=
  match s with
  | String c r =>
      match digit_of c with
      | Some d => digits (10 * acc + d) (S n) r
      | None => (acc, n, s)
      end
  | EmptyString => (acc, n, s)
  end.

(** An optional leading sign: [true] for a minus. *)
Definition take_sign (s : string) : bool * string :=
  match s with
  | String c r =>
      if code c =? 45 then (true, r)
      else if code c =? 43 then (false, r)
      else (false, s)
  | EmptyString => (false, s)
  end.

Definition signed (neg : bool) (z : Z) : Z := if neg then - z else z.

(** [parseInt(s, 10)]: leading white space, an optional sign, then the
    longest run of decimal digits; [NaN] when there is no digit. *)
Definition parseInt (s : string) : option Z :=
  let '(neg, r) := take_sign (trim_start s) in
  match digits 0 0 r with
  | (_, O, _) => None
  | (v, _, _) => Some (signed neg v)
  end.

(** The exponent part [e±ddd] of a decimal literal, when complete. *)
Definition exponent (s : string) : Z :=
  match s with
  | String c r =>
      if (code c =? 101) || (code c =? 69) then
        let '(neg, r') := take_sign r in
        match digits 0 0 r' with
        | (_, O, _) => 0
        | (v, _, _) => signed neg v
        end
      else 0
  | EmptyString => 0
  end.

(** [m * 10^k] as a reduced fraction. *)
Definition scale10 (m k : Z) : Q :=
  if 0 <=? k then Qred (Qmake (m * 10 ^ k) 1)
  else Qred (Qmake m (Z.to_pos (10 ^ (- k)))).

(** [parseFloat(s)]: leading white space, then the longest prefix that
    is a StrDecimalLiteral; [NaN] when there is none. *)
Definition parseFloat (s : string) : number :=
  let '(neg, r) := take_sign (trim_start s) in
  if String.prefix "Infinity" r then Infinity neg
  else
    let '(ip, ni, r1) := digits 0 0 r in
    let '(m, nf, r2) :=
      match r1 with
      | String c r' => if code c =? 46 then digits ip 0 r' else (ip, O, r1)
      | EmptyString => (ip, O, r1)
      end in
    match (ni + nf)%nat with
    | O => NaN
    | _ => round64 (scale10 (signed neg m) (exponent r2 - Z.of_nat nf))
    end.

(** [a >= b], [a <= b] and [a > b] on numbers: false when either side
    is [NaN]. *)
Definition geb (a b : number) : bool :=
  match a, b with
  | NaN, _ | _, NaN => false
  | Infinity na, Infinity nb => implb na nb
  | Infinity na, Finite _ => negb na
  | Finite _, Infinity nb => nb
  | Finite x, Finite y => Qle_bool y x
  end.

Definition leb (a b : number) : bool := geb b a.

Definition gtb (a b : number) : bool :=
  match a, b with
  | NaN, _ | _, NaN => false
  | _, _ => negb (geb b a)
  end.

Definition ltb (a b : number) : bool := gtb b a.

(** [a - b] and [a * b] in binary64. *)
Definition sub (a b : number) : number :=
  match a, b with
  | NaN, _ | _, NaN => NaN
  | Infinity na, Infinity nb => if Bool.eqb na nb then NaN else Infinity na
  | Infinity na, Finite _ => Infinity na
  | Finite _, Infinity nb => Infinity (negb nb)
  | Finite x, Finite y => round64 (x - y)
  end.

Definition is_negative (q : Q) : bool := Qnum q <? 0.

Definition mul (a b : number) : number :=
  match a, b with
  | NaN, _ | _, NaN => NaN
  | Infinity na, Infinity nb => Infinity (xorb na nb)
  | Infinity na, Finite y =>
      if Qeq_bool y 0 then NaN else Infinity (xorb na (is_negative y))
  | Finite x, Infinity nb =>
      if Qeq_bool x 0 then NaN else Infinity (xorb (is_negative x) nb)
  | Finite x, Finite y => round64 (x * y)
  end.

(** [Number.MAX_SAFE_INTEGER]. *)
Definition MAX_SAFE_INTEGER : Z := 2 ^ 53 - 1.

(** The integer a number is, when it is one. *)
Definition as_int (n : number) : option Z :=
  match n with
  | Finite q =>
      if (Qden (Qred q) =? 1)%positive then Some (Qnum (Qred q)) else None
  | _ => None
  end.

End JS.

(** ** The filter object and the documents of the collection *)

(** A condition on one field, as the handlers write it. *)
Inductive Cond : Type :=
| Regex (pattern options : string)   (* { $regex: pattern, $options: options } *)
| Gte (n : JS.number)                (* { $gte: n } *)
| Lte (n : JS.number)                (* { $lte: n } *)
| Eq (n : JS.number).                (* n, a bare number *)

(** The value of one key of the filter object. *)
Inductive Entry : Type :=
| Field (c : Cond)                   (* key: condition on that field *)
| Or (alts : list (string * Cond)).  (* $or: [ { field: condition }, ... ] *)

Abbreviation Filter := (gmap string Entry).

(** A stored recipe, with the fields of [recipeSchema] a filter of the
    handlers can address; [None] in a numeric field is [null]. *)
Record Recipe : Type := {
  title : string;
  cuisine : string;
  rating : option Q;
  prep_time : option Q;
  cook_time : option Q;
  total_time : option Q;
  description : option string;
  calories : option string
}.

Inductive Value : Type :=
| Missing
| Null
| Num (q : Q)
| Str (s : string).

Definition of_number (o : option Q) : Value :=
  match o with Some q => Num q | None => Null end.

Definition of_text (o : option string) : Value :=
  match o with Some s => Str s | None => Missing end.

(** The value a filter key denotes in a document. *)
Definition field_value (key : string) (doc : Recipe) : Value :=
  if String.eqb key "title" then Str (title doc)
  else if String.eqb key "cuisine" then Str (cuisine doc)
  else if String.eqb key "description" then of_text (description doc)
  else if String.eqb key "rating" then of_number (rating doc)
  else if String.eqb key "prep_time" then of_number (prep_time doc)
  else if String.eqb key "cook_time" then of_number (cook_time doc)
  else if String.eqb key "total_time" then of_number (total_time doc)
  else if String.eqb key "nutrients.calories" then of_text (calories doc)
  else Missing.

(** The record store, an external collaborator of the handlers (the
    [Recipe] model of mongoose), as one request finds it.  What is left
    to it: how a condition is tested against a string (regular
    expressions, and the comparison of a number with a string field),
    the order the single-key sort gives in this request, when an
    operation throws for a reason of its own (a lost connection), and
    what it does with a window that is not made of two safe integers
    with [skip >= 0] and [limit >= 1].  The two reads of a request are
    not one transaction: [documents] is the collection as [find] reads
    it and [counted_documents] the collection as [countDocuments] reads
    it. *)
Class Store : Type := {
  documents : list Recipe;
  counted_documents : list Recipe;
  string_holds : Cond -> string -> bool;
  sort_docs : string -> Z -> list Recipe -> list Recipe;
  throws : Filter -> bool;
  outside : JS.number -> JS.number -> list Recipe -> option (list Recipe)
}.

(** The number a numeric condition compares with. *)
Definition operand (c : Cond) : option JS.number :=
  match c with
  | Regex _ _ => None
  | Gte n | Lte n | Eq n => Some n
  end.

(** The paths [recipeSchema] types as [Number]. *)
Definition number_path (key : string) : bool :=
  String.eqb key "rating" || String.eqb key "prep_time"
  || String.eqb key "cook_time" || String.eqb key "total_time".

(** A condition the model can cast to the type of its path: mongoose
    refuses to cast [NaN] to a [Number] path (CastError). *)
Definition cond_castable (key : string) (c : Cond) : bool :=
  match operand c with
  | Some n => negb (number_path key && JS.isNaN n)
  | None => true
  end.

Definition castable (query : Filter) : bool :=
  forallb
    (fun ke =>
       match snd ke with
       | Field c => cond_castable (fst ke) c
       | Or alts => forallb (fun a => cond_castable (fst a) (snd a)) alts
       end)
    (map_to_list query).

(** A condition against a stored number: numeric comparison, and no
    regular expression matches a number. *)
Definition number_holds (c : Cond) (x : Q) : bool :=
  match c with
  | Regex _ _ => false
  | Gte n => JS.geb (JS.Finite x) n
  | Lte n => JS.leb (JS.Finite x) n
  | Eq n => match n with JS.Finite y => Qeq_bool x y | _ => false end
  end.

(** A condition against the value of a field: [null] and a missing
    field satisfy none of the conditions the handlers write. *)
Definition cond_holds `{Store} (c : Cond) (v : Value) : bool :=
  match v with
  | Num x => number_holds c x
  | Str s => string_holds c s
  | Null | Missing => false
  end.

Definition entry_holds `{Store} (doc : Recipe) (key : string) (e : Entry) : bool :=
  match e with
  | Field c => cond_holds c (field_value key doc)
  | Or alts => existsb (fun a => cond_holds (snd a) (field_value (fst a) doc)) alts
  end.

(** A document matches a filter when every key of the filter holds. *)
Definition matches `{Store} (query : Filter) (doc : Recipe) : bool :=
  forallb (fun ke => entry_holds doc (fst ke) (snd ke)) (map_to_list query).

(** [Recipe.find(query).sort(sort)]: the full sorted, filtered match set. *)
Definition match_set `{Store} (query : Filter) (sort : string * Z) : list Recipe :=
  sort_docs (fst sort) (snd sort) (List.filter (matches query) documents).

(** A window the store is taken to accept: two safe integers, the skip
    not negative and the limit at least 1. *)
Definition accepted (s l : Z) : bool :=
  (0 <=? s) && (s <=? JS.MAX_SAFE_INTEGER)
  && (1 <=? l) && (l <=? JS.MAX_SAFE_INTEGER).

(** [.skip(skip).limit(limit)]. *)
Definition window `{Store} (skip limit : JS.number) (l : list Recipe)
  : option (list Recipe) :=
  match JS.as_int skip, JS.as_int limit with
  | Some s, Some n =>
      if accepted s n
      then Some (take (Z.to_nat n) (drop (Z.to_nat s) l))
      else outside skip limit l
  | _, _ => outside skip limit l
  end.

(** [find] and [countDocuments] cast the filter first. *)
Definition find `{Store} (query : Filter) (sort : string * Z)
  (skip limit : JS.number) : option (list Recipe) :=
  if throws query || negb (castable query) then None
  else window skip limit (match_set query sort).

Definition countDocuments `{Store} (query : Filter) : option nat :=
  if throws query || negb (castable query) then None
  else Some (length (List.filter (matches query) counted_documents)).

(** What a handler has built when it calls the store. *)
Record Plan : Type := {
  page : JS.number;
  limit : JS.number;
  skip : JS.number;
  sort : string * Z;
  query : Filter
}.

(** The object given to [res.json] in a 200 answer; [res_success] is
    the [success] key, which only [getRecipes] writes. *)
Record Envelope : Type := {
  res_success : option bool;
  res_page : JS.number;
  res_limit : JS.number;
  res_total : nat;
  res_data : list Recipe
}.

Inductive Response : Type :=
| Status200 (body : Envelope)
| Status500.

(** [Promise.all([find..., countDocuments...])], then the envelope; the
    [catch] branch answers 500. *)
Definition respond `{Store} (success : option bool) (p : Plan) : Response :=
  match find (query p) (sort p) (skip p) (limit p), countDocuments (query p) with
  | Some recipes, Some total =>
      Status200 {| res_success := success; res_page := page p;
                   res_limit := limit p; res_total := total;
                   res_data := recipes |}
  | _, _ => Status500
  end.

(** [if (b) query[key] = e]. *)
Definition insert_if (b : bool) (key : string) (e : Entry) (query : Filter) : Filter :=
  if b then <[key := e]> query else query.

(** ** Shape A: the list endpoint, [GET /api/recipes] *)

(** The repository holds this handler twice, with the same text. *)

Module A.

Definition handleNumberFilter (value : string) : option JS.number :=
  if String.eqb value "null" || String.eqb value "undefined" then None
  else
    let num := JS.parseFloat value in
    if JS.isNaN num then None else Some num.

(** The body of the [forEach] over the numeric fields. *)
Definition numeric_filter (req_query : gmap string string)
  (query : Filter) (field : string) : Filter :=
  match req_query !! field with
  | Some v =>
      match handleNumberFilter v with
      | Some value => <[field := Field (Eq value)]> query
      | None => query
      end
  | None => query
  end.

(** The filter object after the [q], [cuisine], [rating] and
    [maxTotalTime] blocks, as the numeric [forEach] finds it. *)
Definition threshold_filters (req_query : gmap string string) : Filter :=
  let query : Filter := ∅ in
  let q := JS.ToString (req_query !! "q") in
  let query :=
    insert_if (JS.truthy (req_query !! "q")) "$or"
      (Or [("title", Regex q "i"); ("cuisine", Regex q "i");
           ("description", Regex q "i")]) query in
  let query :=
    insert_if (JS.truthy (req_query !! "cuisine")) "cuisine"
      (Field (Regex (JS.ToString (req_query !! "cuisine")) "i")) query in
  let query :=
    insert_if (JS.truthy (req_query !! "rating")) "rating"
      (Field (Gte (JS.parseFloat (JS.ToString (req_query !! "rating"))))) query in
  insert_if (JS.truthy (req_query !! "maxTotalTime")) "total_time"
    (Field (Lte (JS.of_int (JS.parseInt (JS.ToString (req_query !! "maxTotalTime"))))))
    query.

Definition getRecipes_plan (req_query : gmap string string) : Plan :=
  let page :=
    JS.or_number (JS.of_int (JS.parseInt (JS.ToString (req_query !! "page"))))
      (JS.Finite 1) in
  let limit :=
    JS.or_number (JS.of_int (JS.parseInt (JS.ToString (req_query !! "limit"))))
      (JS.Finite 10) in
  let skip := JS.mul (JS.sub page (JS.Finite 1)) limit in
  let sortBy := JS.or_string (req_query !! "sortBy") "rating" in
  let sortOrder := if bool_decide (req_query !! "sortOrder" = Some "asc") then 1 else -1 in
  let sort := (sortBy, sortOrder) in
  let query :=
    fold_left (numeric_filter req_query)
      ["prep_time"; "cook_time"; "total_time"; "rating"]
      (threshold_filters req_query) in
  {| page := page; limit := limit; skip := skip; sort := sort; query := query |}.

Definition getRecipes `{Store} (req_query : gmap string string) : Response :=
  respond (Some true) (getRecipes_plan req_query).

End A.

(** ** Shape B, first generation: [GET /api/recipes/search] with
    [q], [cuisine], [minRating], [maxPrepTime], [maxCookTime] *)

Module B1.

Definition searchRecipes_plan (req_query : gmap string string) : Plan :=
  let q := req_query !! "q" in
  let cuisine := req_query !! "cuisine" in
  let minRating := req_query !! "minRating" in
  let maxPrepTime := req_query !! "maxPrepTime" in
  let maxCookTime := req_query !! "maxCookTime" in
  let page :=
    JS.or_number (JS.of_int (JS.parseInt (JS.ToString (req_query !! "page"))))
      (JS.Finite 1) in
  let limit :=
    JS.or_number (JS.of_int (JS.parseInt (JS.ToString (req_query !! "limit"))))
      (JS.Finite 10) in
  let skip := JS.mul (JS.sub page (JS.Finite 1)) limit in
  let query : Filter := ∅ in
  let query :=
    insert_if (JS.truthy q) "$or"
      (Or [("title", Regex (JS.ToString q) "i");
           ("description", Regex (JS.ToString q) "i")]) query in
  let query :=
    insert_if (JS.truthy cuisine) "cuisine"
      (Field (Regex (JS.ToString cuisine) "i")) query in
  let query :=
    if JS.truthy minRating then
      let rating := JS.parseFloat (JS.ToString minRating) in
      insert_if (negb (JS.isNaN rating)
                 && JS.geb rating (JS.Finite 1) && JS.leb rating (JS.Finite 5))
        "rating" (Field (Gte rating)) query
    else query in
  let query :=
    if JS.truthy maxPrepTime then
      let prepTime := JS.parseInt (JS.ToString maxPrepTime) in
      insert_if (negb (JS.isNaN (JS.of_int prepTime))
                 && JS.gtb (JS.of_int prepTime) (JS.Finite 0))
        "prep_time" (Field (Lte (JS.of_int prepTime))) query
    else query in
  let query :=
    if JS.truthy maxCookTime then
      let cookTime := JS.parseInt (JS.ToString maxCookTime) in
      insert_if (negb (JS.isNaN (JS.of_int cookTime))
                 && JS.gtb (JS.of_int cookTime) (JS.Finite 0))
        "cook_time" (Field (Lte (JS.of_int cookTime))) query
    else query in
  let sortBy := JS.or_string (req_query !! "sortBy") "rating" in
  let sortOrder := if bool_decide (req_query !! "sortOrder" = Some "asc") then 1 else -1 in
  let sort := (sortBy, sortOrder) in
  {| page := page; limit := limit; skip := skip; sort := sort; query := query |}.

Definition searchRecipes `{Store} (req_query : gmap string string) : Response :=
  respond None (searchRecipes_plan req_query).

End B1.

(** ** Shape B, second generation: [GET /api/recipes/search] with
    [title], [cuisine] and the operator parameters *)

Module B2.

Definition buildOperatorQuery (value operator : string) : option Entry :=
  let num := JS.parseFloat value in
  if JS.isNaN num then None
  else if String.eqb operator "gte" then Some (Field (Gte num))
  else if String.eqb operator "lte" then Some (Field (Lte num))
  else if String.eqb operator "eq" then Some (Field (Eq num))
  else Some (Field (Gte num)).

(** [if (value) { const r = buildOperatorQuery(value, op || dflt);
    if (r !== null) query[key] = r; }] *)
Definition operator_filter (value op : option string) (dflt key : string)
  (query : Filter) : Filter :=
  if JS.truthy value then
    match buildOperatorQuery (JS.ToString value) (JS.or_string op dflt) with
    | Some r => <[key := r]> query
    | None => query
    end
  else query.

Definition searchRecipes_plan (req_query : gmap string string) : Plan :=
  let title := req_query !! "title" in
  let cuisine := req_query !! "cuisine" in
  let rating := req_query !! "rating" in
  let ratingOp := req_query !! "ratingOp" in
  let calories := req_query !! "calories" in
  let caloriesOp := req_query !! "caloriesOp" in
  let total_time := req_query !! "total_time" in
  let timeOp := req_query !! "timeOp" in
  let page :=
    JS.or_number (JS.of_int (JS.parseInt (JS.ToString (req_query !! "page"))))
      (JS.Finite 1) in
  let limit :=
    JS.or_number (JS.of_int (JS.parseInt (JS.ToString (req_query !! "limit"))))
      (JS.Finite 10) in
  let skip := JS.mul (JS.sub page (JS.Finite 1)) limit in
  let query : Filter := ∅ in
  let query :=
    insert_if (JS.truthy title) "title"
      (Field (Regex (JS.ToString title) "i")) query in
  let query :=
    insert_if (JS.truthy cuisine) "cuisine"
      (Field (Regex (JS.ToString cuisine) "i")) query in
  let query := operator_filter rating ratingOp "gte" "rating" query in
  let query := operator_filter calories caloriesOp "gte" "nutrients.calories" query in
  let query := operator_filter total_time timeOp "lte" "total_time" query in
  let sortBy := JS.or_string (req_query !! "sortBy") "rating" in
  let sortOrder := if bool_decide (req_query !! "sortOrder" = Some "asc") then 1 else -1 in
  let sort := (sortBy, sortOrder) in
  {| page := page; limit := limit; skip := skip; sort := sort; query := query |}.

Definition searchRecipes `{Store} (req_query : gmap string string) : Response :=
  respond None (searchRecipes_plan req_query).

End B2.

(** ** The normalisation of [seed.js] *)

Module Seed.

(** One entry of the dataset: a missing key and [null] are both [None]. *)
Record RawRecipe : Type := {
  title : option string;
  cuisine : option string;
  rating : option Q;
  prep_time : option Q;
  cook_time : option Q;
  total_time : option Q;
  description : option string;
  ingredients : option (list string);
  instructions : option (list string);
  nutrients : option (gmap string string);
  serves : option string;
  URL : option string;
  Continent : option string;
  Country_State : option string
}.

(** An element of [formattedRecipes], the object given to [insertMany]. *)
Record FormattedRecipe : Type := {
  f_title : string;
  f_cuisine : string;
  f_rating : Q;
  f_prep_time : Q;
  f_cook_time : Q;
  f_total_time : Q;
  f_description : string;
  f_ingredients : list string;
  f_instructions : list string;
  f_nutrients : gmap string string;
  f_serves : string;
  f_url : string;
  f_continent : string;
  f_country_state : string
}.

(** [v || d] on a number-or-missing value: [0] is falsy. *)
Definition or_number (v : option Q) (d : Q) : Q :=
  match v with
  | Some x => if Qeq_bool x 0 then d else x
  | None => d
  end.

(** [v || d] on an array or object: every array or object is truthy. *)
Definition or_object {T : Type} (v : option T) (d : T) : T :=
  match v with Some x => x | None => d end.

(** The body of the loop over [Object.entries(recipeData)]: [None] is
    [continue]. *)
Definition format (entry : option RawRecipe) : option FormattedRecipe :=
  match entry with
  | None => None
  | Some recipe =>
      if negb (JS.truthy (title recipe)) then None
      else Some {|
        f_title := JS.ToString (title recipe);
        f_cuisine := JS.or_string (cuisine recipe) "Uncategorized";
        f_rating := or_number (rating recipe) 0;
        f_prep_time := or_number (prep_time recipe) 0;
        f_cook_time := or_number (cook_time recipe) 0;
        f_total_time :=
          or_number (total_time recipe)
            (Qplus (or_number (prep_time recipe) 0) (or_number (cook_time recipe) 0));
        f_description := JS.or_string (description recipe) "";
        f_ingredients := or_object (ingredients recipe) [];
        f_instructions := or_object (instructions recipe) [];
        f_nutrients := or_object (nutrients recipe) ∅;
        f_serves := JS.or_string (serves recipe) "";
        f_url := JS.or_string (URL recipe) "";
        f_continent := JS.or_string (Continent recipe) "Unknown";
        f_country_state := JS.or_string (Country_State recipe) "Unknown"
      |}
  end.

(** The title of an entry the loop keeps. *)
Definition kept_title (entry : option RawRecipe) : option string :=
  match entry with
  | Some recipe =>
      match title recipe with
      | Some (String c t) => Some (String c t)
      | _ => None
      end
  | None => None
  end.

Definition formattedRecipes (recipeData : list (string * option RawRecipe))
  : list FormattedRecipe :=
  omap (fun kv => format (snd kv)) recipeData.

End Seed.

(** ** The routes of [recipeRoutes.js] *)

(** [GET /] is [getRecipes]; [GET /search] is [searchRecipes], of which
    the repository holds two generations. *)
Inductive Endpoint : Type :=
| ListRecipes
| SearchV1
| SearchV2.

Definition plan_of (e : Endpoint) (req_query : gmap string string) : Plan :=
  match e with
  | ListRecipes => A.getRecipes_plan req_query
  | SearchV1 => B1.searchRecipes_plan req_query
  | SearchV2 => B2.searchRecipes_plan req_query
  end.

Definition handle `{Store} (e : Endpoint) (req_query : gmap string string) : Response :=
  match e with
  | ListRecipes => A.getRecipes req_query
  | SearchV1 => B1.searchRecipes req_query
  | SearchV2 => B2.searchRecipes req_query
  end.

(** Two parameter maps that differ at most in [page] and [limit]. *)
Definition same_but_window (a b : gmap string string) : Prop :=
  forall k : string, k <> "page" -> k <> "limit" -> a !! k = b !! k.

(** The [success] key each handler writes. *)
Definition success_of (e : Endpoint) : option bool :=
  match e with ListRecipes => Some true | _ => None end.

(** The reading of the pagination contract under which whatever integer
    [page] parses to, zero and negatives included, is the page, and a
    page of zero or below gives a negative offset. *)
Definition page_passed_through (e : Endpoint) (req_query : gmap string string) : Prop :=
  forall z : Z,
    JS.parseInt (JS.ToString (req_query !! "page")) = Some z ->
    page (plan_of e req_query) = JS.of_int (Some z)
    /\ (z <= 0 -> JS.ltb (skip (plan_of e req_query)) (JS.Finite 0) = true).

(** What the operator mechanism of the second search handler promises
    for one numeric parameter [param] with its companion [opParam],
    written under [key]: [omitted] is the comparison used when the
    operator is not given. *)
Definition operator_selected (req_query : gmap string string) (q : Filter)
  (param opParam key : string) (omitted : JS.number -> Cond) : Prop :=
  (JS.truthy (req_query !! param) = false -> q !! key = None)
  /\ forall v : string, req_query !! param = Some v ->
      let n := JS.parseFloat v in
      (JS.isNaN n = true -> q !! key = None)
      /\ (JS.isNaN n = false ->
          (req_query !! opParam = Some "gte" -> q !! key = Some (Field (Gte n)))
          /\ (req_query !! opParam = Some "lte" -> q !! key = Some (Field (Lte n)))
          /\ (req_query !! opParam = Some "eq" -> q !! key = Some (Field (Eq n)))
          /\ (JS.truthy (req_query !! opParam) = false ->
              q !! key = Some (Field (omitted n)))
          /\ (forall op : string, req_query !! opParam = Some op ->
              op <> "" -> op <> "gte" -> op <> "lte" -> op <> "eq" ->
              q !! key = Some (Field (Gte n)))).

(** ** A small store to run the handlers on *)

Module Sample.

Definition recipe (t c : string) (r : Z) (total : Z) : Recipe :=
  {| title := t; cuisine := c; rating := Some (inject_Z r);
     prep_time := None; cook_time := None;
     total_time := Some (inject_Z total);
     description := None; calories := None |}.

Definition docs : list Recipe :=
  [ recipe "Pie" "American" 5 60; recipe "Stew" "Irish" 3 120;
    recipe "Salad" "Greek" 4 15; recipe "Toast" "American" 2 5 ].

Definition key (field : string) (doc : Recipe) : Q :=
  match field_value field doc with Num q => q | _ => 0 end.

(** Insertion in a list sorted by [field], ascending for a positive
    direction and descending otherwise. *)
Fixpoint insert_doc (field : string) (dir : Z) (d : Recipe) (l : list Recipe)
  : list Recipe :=
  match l with
  | [] => [d]
  | x :: r =>
      if (if 0 <? dir then Qle_bool (key field d) (key field x)
          else Qle_bool (key field x) (key field d))
      then d :: l
      else x :: insert_doc field dir d r
  end.

Definition sort_by (field : string) (dir : Z) (l : list Recipe) : list Recipe :=
  fold_right (insert_doc field dir) [] l.

#[local] Instance store : Store := {|
  documents := docs;
  counted_documents := docs;
  string_holds := fun c s =>
    match c with Regex p _ => String.eqb p s | _ => false end;
  sort_docs := sort_by;
  throws := fun _ => false;
  outside := fun _ _ _ => None
|}.

Definition params (l : list (string * string)) : gmap string string :=
  list_to_map l.

Definition body_of (r : Response) : Envelope :=
  match r with
  | Status200 b => b
  | Status500 =>
      {| res_success := None; res_page := JS.NaN; res_limit := JS.NaN;
         res_total := 0; res_data := [] |}
  end.

End Sample.

(** ** The statics and the hook of the [Recipe] model *)

Module Model.

(** The value of a numeric path of a document. *)
Inductive FieldVal : Type :=
| Undefined
| NullVal
| NumVal (n : JS.number).

(** [Number(v)]. *)
Definition to_Number (v : FieldVal) : JS.number :=
  match v with
  | Undefined => JS.NaN
  | NullVal => JS.Finite 0
  | NumVal n => n
  end.

Definition is_undefined (v : FieldVal) : bool :=
  match v with Undefined => true | _ => false end.

Definition is_null (v : FieldVal) : bool :=
  match v with NullVal => true | _ => false end.

(** The four numeric paths the hook visits. *)
Record Numbers : Type := {
  n_rating : FieldVal;
  n_prep_time : FieldVal;
  n_cook_time : FieldVal;
  n_total_time : FieldVal
}.

(** The body of the [forEach] of the [pre('save')] hook, on one field. *)
Definition pre_save_field (v : FieldVal) : FieldVal :=
  if negb (is_undefined v) && (JS.isNaN (to_Number v) || is_null v)
  then NullVal else v.

Definition pre_save (doc : Numbers) : Numbers :=
  {| n_rating := pre_save_field (n_rating doc);
     n_prep_time := pre_save_field (n_prep_time doc);
     n_cook_time := pre_save_field (n_cook_time doc);
     n_total_time := pre_save_field (n_total_time doc) |}.

(** What [_parseNutrientFilter] returns: an operator object or the bare
    number. *)
Inductive NutrientFilter : Type :=
| NGt (n : JS.number)      (* { $gt: n } *)
| NGte (n : JS.number)     (* { $gte: n } *)
| NLt (n : JS.number)      (* { $lt: n } *)
| NLte (n : JS.number)     (* { $lte: n } *)
| NExact (n : JS.number).  (* n *)

(** The characters of the class [[<>=]]. *)
Definition is_operator_char (c : ascii) : bool :=
  (JS.code c =? 60) || (JS.code c =? 61) || (JS.code c =? 62).

(** The match of [/^[<>=]+/] (empty when there is none) and the string
    without it. *)
Fixpoint operator_run (s : string) : string * string :=
  match s with
  | String c r =>
      if is_operator_char c
      then (String c (fst (operator_run r)), snd (operator_run r))
      else (EmptyString, s)
  | EmptyString => (EmptyString, EmptyString)
  end.

(** [_parseNutrientFilter]. *)
Definition parseNutrientFilter (filterString : string) : NutrientFilter :=
  let operator :=
    match fst (operator_run filterString) with
    | EmptyString => "="
    | o => o
    end in
  let value := JS.parseFloat (snd (operator_run filterString)) in
  if String.eqb operator ">" then NGt value
  else if String.eqb operator ">=" then NGte value
  else if String.eqb operator "<" then NLt value
  else if String.eqb operator "<=" then NLte value
  else NExact value.

(** A string made of operator characters only, and a string that begins
    with one. *)
Fixpoint all_operator (s : string) : bool :=
  match s with
  | String c r => is_operator_char c && all_operator r
  | EmptyString => true
  end.

Definition starts_with_operator (s : string) : bool :=
  match s with
  | String c _ => is_operator_char c
  | EmptyString => false
  end.

(** The query object [filterByNutrients] gives to [find]. *)
Definition filterByNutrients_query (filters : gmap string string)
  : gmap string NutrientFilter :=
  if JS.truthy (filters !! "calories")
  then {[ "nutrients.calories" :=
            parseNutrientFilter (JS.ToString (filters !! "calories")) ]}
  else ∅.

End Model.

(** ** The insertion loop of [seed.js] *)

Module SeedRun.

Definition batchSize : nat := 50.

(** [l.slice(i, j)] for [0 <= i]. *)
Definition slice {T : Type} (i j : nat) (l : list T) : list T :=
  take (j - i) (drop i l).

(** The [for] loop from index [i]: each batch given to [insertMany],
    with the count the loop logs after it.  The index grows at every
    turn, so [fuel] turns are enough when [fuel] is the length. *)
Fixpoint insert_loop {T : Type} (fuel i : nat) (formatted : list T)
  : list (list T * nat) :=
  match fuel with
  | O => []
  | S fuel' =>
      if (i <? length formatted)%nat
      then (slice i (i + batchSize) formatted,
            Nat.min (i + batchSize) (length formatted))
           :: insert_loop fuel' (i + batchSize) formatted
      else []
  end.

Definition batches {T : Type} (formatted : list T) : list (list T * nat) :=
  insert_loop (length formatted) 0 formatted.

(** The process: [connects] is whether [mongoose.connect] and
    [deleteMany] succeed, [accepts] whether [insertMany] takes a batch; a
    failure of either ends in the [catch] branch. *)
Inductive Outcome : Type :=
| Exit0 (inserted : list Seed.FormattedRecipe)
| Exit1.

(** The batches [insertMany] took, in order, or [None] at the first one
    it refuses. *)
Fixpoint insert_all (accepts : list Seed.FormattedRecipe -> bool)
  (calls : list (list Seed.FormattedRecipe * nat))
  : option (list Seed.FormattedRecipe) :=
  match calls with
  | [] => Some []
  | (batch, _) :: rest =>
      if accepts batch
      then option_map (app batch) (insert_all accepts rest)
      else None
  end.

(** [seedDatabase]: the collection is emptied, then filled with the
    batches; the result is what the store was given after
    [deleteMany({})]. *)
Definition seedDatabase (connects : bool)
  (accepts : list Seed.FormattedRecipe -> bool)
  (recipeData : list (string * option Seed.RawRecipe)) : Outcome :=
  if connects then
    match insert_all accepts (batches (Seed.formattedRecipes recipeData)) with
    | Some inserted => Exit0 inserted
    | None => Exit1
    end
  else Exit1.

End SeedRun.

(** ** The page component: search parameters and sorting *)

Module App.

(** A value of a parameter object of the user interface. *)
Inductive Val : Type :=
| VUndefined
| VNull
| VStr (s : string).

#[export] Instance Val_eq_dec : EqDecision Val.
Proof. solve_decision. Defined.

(** The test of the [filter] in [handleSearch]:
    [v !== '' && v !== null && v !== undefined]. *)
Definition kept (v : Val) : bool :=
  match v with
  | VStr EmptyString | VNull | VUndefined => false
  | VStr _ => true
  end.

(** [Object.fromEntries(Object.entries(params).filter(...))]. *)
Definition non_empty (params : gmap string Val) : gmap string Val :=
  filter (fun kv => kept (snd kv) = true) params.

(** The new [searchParams] of [handleSearch]: the three spreads, a later
    one overriding an earlier one, then the removal of an empty [q]. *)
Definition handleSearch (prev params : gmap string Val) : gmap string Val :=
  let newParams := non_empty params ∪ (params ∪ prev) in
  if bool_decide (params !! "q" = Some (VStr ""))
  then delete "q" newParams
  else newParams.

(** The sort state, and [handleSort]. *)
Record SortState : Type := {
  sortBy : string;
  sortOrder : string
}.

Definition handleSort (st : SortState) (property : string) : SortState :=
  let isAsc := String.eqb (sortBy st) property && String.eqb (sortOrder st) "asc" in
  {| sortBy := property; sortOrder := if isAsc then "desc" else "asc" |}.

End App.

(** ** The parameters each handler reads and the keys it writes *)

Definition params_read (e : Endpoint) : list string :=
  match e with
  | ListRecipes =>
      ["page"; "limit"; "sortBy"; "sortOrder"; "q"; "cuisine"; "rating";
       "maxTotalTime"; "prep_time"; "cook_time"; "total_time"]
  | SearchV1 =>
      ["page"; "limit"; "sortBy"; "sortOrder"; "q"; "cuisine"; "minRating";
       "maxPrepTime"; "maxCookTime"]
  | SearchV2 =>
      ["page"; "limit"; "sortBy"; "sortOrder"; "title"; "cuisine"; "rating";
       "ratingOp"; "calories"; "caloriesOp"; "total_time"; "timeOp"]
  end.

Definition keys_written (e : Endpoint) : list string :=
  match e with
  | ListRecipes =>
      ["$or"; "cuisine"; "rating"; "total_time"; "prep_time"; "cook_time"]
  | SearchV1 => ["$or"; "cuisine"; "rating"; "prep_time"; "cook_time"]
  | SearchV2 => ["title"; "cuisine"; "rating"; "nutrients.calories"; "total_time"]
  end.

(** The assignments to the filter: the parameter whose value guards the
    assignment, with the key assigned. *)
Definition filter_parameters (e : Endpoint) : list (string * string) :=
  match e with
  | ListRecipes =>
      [("q", "$or"); ("cuisine", "cuisine"); ("rating", "rating");
       ("maxTotalTime", "total_time"); ("prep_time", "prep_time");
       ("cook_time", "cook_time"); ("total_time", "total_time")]
  | SearchV1 =>
      [("q", "$or"); ("cuisine", "cuisine"); ("minRating", "rating");
       ("maxPrepTime", "prep_time"); ("maxCookTime", "cook_time")]
  | SearchV2 =>
      [("title", "title"); ("cuisine", "cuisine"); ("rating", "rating");
       ("calories", "nutrients.calories"); ("total_time", "total_time")]
  end.

(** Two readings of a parameter that are the same, or the empty string
    in the first and nothing in the second. *)
Definition same_or_empty (a b : option string) : Prop :=
  a = b \/ (a = Some "" /\ b = None).

(** An entry of the filter that compares with no [NaN]. *)
Definition NaN_free (e : Entry) : Prop :=
  match e with
  | Field c =>
      match operand c with
      | Some n => JS.isNaN n = false
      | None => True
      end
  | Or alts => Forall (fun a => operand (snd a) = None) alts
  end.

(** ** Tactics *)

(** Rewrites every lookup in the first map of [Hs] into the lookup in
    the second. *)
Ltac same_lookups Hs :=
  repeat match goal with
         | |- context [?a !! ?k] =>
             lazymatch type of Hs with
             | same_but_window a _ => rewrite (Hs k) by discriminate
             end
         end.

(** Membership in a list given by its elements. *)
Ltac in_list := repeat first [left; reflexivity | right].

(** Lookups of keys that [H] says are not the parameter written. *)
Ltac unread H :=
  rewrite ?lookup_insert_ne, ?lookup_delete_ne
    by (intros ->; apply H; simpl; in_list).

(** * Properties *)

(** ** Evaluation of the primitives *)

Example parseInt_page : JS.parseInt "  42px" = Some 42.
Proof. reflexivity. Qed.

Example parseInt_negative : JS.parseInt "-3" = Some (-3).
Proof. reflexivity. Qed.

Example parseInt_undefined : JS.parseInt (JS.ToString None) = None.
Proof. reflexivity. Qed.

Example parseFloat_decimal : JS.parseFloat "4.5" = JS.Finite (9 # 2).
Proof. reflexivity. Qed.

Example parseFloat_exponent : JS.parseFloat " -1.25e2abc" = JS.Finite (- 125 # 1).
Proof. reflexivity. Qed.

Example parseFloat_dot : JS.parseFloat "." = JS.NaN.
Proof. reflexivity. Qed.

Example parseFloat_null : JS.parseFloat "null" = JS.NaN.
Proof. reflexivity. Qed.

(** Rounding: the literal is read as the nearest binary64 number. *)
Example parseFloat_rounds_to_five :
  JS.parseFloat "5.0000000000000001" = JS.Finite 5.
Proof. vm_compute. reflexivity. Qed.

Example parseFloat_rounds_to_one :
  JS.parseFloat "0.99999999999999999" = JS.Finite 1.
Proof. vm_compute. reflexivity. Qed.

Example parseFloat_tenth :
  JS.parseFloat "0.1" = JS.Finite (3602879701896397 # 36028797018963968).
Proof. vm_compute. reflexivity. Qed.

Example parseFloat_overflow : JS.parseFloat "1e400" = JS.Infinity false.
Proof. vm_compute. reflexivity. Qed.

Example parseFloat_underflow : JS.parseFloat "1e-400" = JS.Finite 0.
Proof. vm_compute. reflexivity. Qed.

Example of_int_rounds :
  JS.of_int (JS.parseInt "99999999999999999999")
  = JS.Finite 100000000000000000000.
Proof. vm_compute. reflexivity. Qed.

Example of_int_tie_to_even :
  JS.of_int (Some 9007199254740993) = JS.Finite 9007199254740992.
Proof. vm_compute. reflexivity. Qed.

Lemma parseFloat_nonempty (v : string) :
  JS.isNaN (JS.parseFloat v) = false -> JS.truthy (Some v) = true.
Proof. destruct v; [discriminate | reflexivity]. Qed.

(** ** Numbers *)

(** [round_div] is a nearest integer of the quotient, the even one of
    the two when the quotient is half way. *)
Lemma round_div_nearest (N D : Z) :
  0 <= N -> 0 < D ->
  2 * Z.abs (N - D * JS.round_div N D) <= D
  /\ (2 * Z.abs (N - D * JS.round_div N D) = D ->
      Z.even (JS.round_div N D) = true).
Proof.
  intros HN HD. unfold JS.round_div.
  pose proof (Z.div_mod N D ltac:(lia)) as Hdm.
  pose proof (Z.mod_pos_bound N D HD) as Hr.
  destruct (Z.ltb_spec (2 * (N mod D)) D) as [H1|H1]; [split; lia|].
  destruct (Z.ltb_spec D (2 * (N mod D))) as [H2|H2]; [split; lia|].
  destruct (Z.even (N / D)) eqn:He; [split; [lia | done]|].
  split; [lia|]. intros _. rewrite Z.even_add, He. reflexivity.
Qed.

Lemma Qred_inject_Z (m : Z) : Qred (inject_Z m) = inject_Z m.
Proof. apply Qcanon.Qred_identity. simpl. apply Z.gcd_1_r. Qed.

(** An integer of magnitude at most [2^53] is its own Number value. *)
Lemma of_int_safe (z : Z) :
  Z.abs z <= 2 ^ 53 -> JS.of_int (Some z) = JS.Finite (inject_Z z).
Proof.
  intros Hz. unfold JS.of_int, JS.round_frac.
  destruct (Z.eqb_spec z 0) as [->|_]; [reflexivity|].
  destruct (Z.leb_spec (Z.abs z) (2 ^ 53)); [reflexivity | lia].
Qed.

Lemma round64_int (q : Q) (m : Z) :
  Qeq q (inject_Z m) -> Z.abs m <= 2 ^ 53 ->
  JS.round64 q = JS.Finite (inject_Z m).
Proof.
  intros Hq Hm. unfold JS.round64.
  rewrite (Qred_complete _ _ Hq), Qred_inject_Z. simpl.
  by apply of_int_safe.
Qed.

Lemma as_int_inject_Z (m : Z) : JS.as_int (JS.Finite (inject_Z m)) = Some m.
Proof. unfold JS.as_int. by rewrite Qred_inject_Z. Qed.

Lemma sub_exact (a b : Z) :
  Z.abs (a - b) <= 2 ^ 53 ->
  JS.sub (JS.Finite (inject_Z a)) (JS.Finite (inject_Z b))
  = JS.Finite (inject_Z (a - b)).
Proof.
  intros Hab. simpl. apply round64_int; [|exact Hab].
  unfold Qeq, Qminus, Qplus, Qopp, inject_Z. simpl. lia.
Qed.

Lemma mul_exact (a b : Z) :
  Z.abs (a * b) <= 2 ^ 53 ->
  JS.mul (JS.Finite (inject_Z a)) (JS.Finite (inject_Z b))
  = JS.Finite (inject_Z (a * b)).
Proof.
  intros Hab. simpl. apply round64_int; [|exact Hab].
  unfold Qeq, Qmult, inject_Z. simpl. lia.
Qed.

Lemma round_div_ge (N D : Z) : N / D <= JS.round_div N D.
Proof.
  unfold JS.round_div.
  repeat match goal with |- context [if ?b then _ else _] => destruct b end; lia.
Qed.

(** The Number value of a non-zero integer is an infinity of its sign or
    an integer of its sign. *)
Lemma of_int_cases (z : Z) :
  z <> 0 ->
  JS.of_int (Some z) = JS.Infinity (z <? 0)
  \/ exists w : Z, JS.of_int (Some z) = JS.Finite (inject_Z w)
       /\ (0 < z -> 0 < w) /\ (z < 0 -> w < 0).
Proof.
  intros Hz. unfold JS.of_int, JS.round_frac.
  destruct (Z.eqb_spec z 0) as [|_]; [done|].
  destruct (Z.leb_spec (Z.abs z) (2 ^ 53)) as [Hs|Hs]; simpl.
  { right. exists z. split; [reflexivity | lia]. }
  set (a := Z.abs z) in *.
  assert (Ha : 0 < a) by lia.
  assert (He : JS.ilog2 a 1 = Z.log2 a).
  { unfold JS.ilog2. change (Z.log2 1) with 0. rewrite Z.sub_0_r.
    pose proof (Z.log2_nonneg a) as Hl.
    destruct (Z.leb_spec 0 (Z.log2 a)); [|lia].
    pose proof (Z.log2_spec a Ha) as [Hlo _].
    destruct (Z.leb_spec (1 * 2 ^ Z.log2 a) a); [reflexivity | lia]. }
  rewrite He.
  assert (Hl : 53 <= Z.log2 a).
  { apply Z.log2_le_pow2; [exact Ha | lia]. }
  rewrite Z.max_l by lia.
  set (u := Z.log2 a - 52).
  assert (Hu : 1 <= u) by (unfold u; lia).
  destruct (Z.leb_spec 0 u); [|lia]. simpl.
  set (k := JS.round_div a (1 * 2 ^ u)).
  assert (Hk : 1 <= k).
  { pose proof (round_div_ge a (1 * 2 ^ u)) as Hge. fold k in Hge.
    assert (1 <= a / (1 * 2 ^ u)); [|lia].
    rewrite Z.mul_1_l.
    apply Z.div_le_lower_bound; [apply Z.pow_pos_nonneg; lia|].
    rewrite Z.mul_1_r.
    pose proof (Z.log2_spec a Ha) as [Hlo _].
    assert (2 ^ u <= 2 ^ Z.log2 a); [|lia].
    apply Z.pow_le_mono_r; unfold u; lia. }
  destruct (2 ^ 1024 <=? k * 2 ^ u); [by left|].
  right. assert (Hp : 0 < 2 ^ u) by (apply Z.pow_pos_nonneg; lia).
  destruct (Z.ltb_spec z 0).
  - exists (- k * 2 ^ u). split; [reflexivity|]. split; [lia | nia].
  - exists (k * 2 ^ u). split; [reflexivity|]. split; [nia | lia].
Qed.

Lemma falsy_inject_Z (w : Z) : JS.falsy (JS.Finite (inject_Z w)) = (w =? 0).
Proof.
  simpl. destruct (Qeq_bool (inject_Z w) 0) eqn:E.
  - apply Qeq_bool_iff in E. unfold Qeq in E. simpl in E.
    destruct (Z.eqb_spec w 0); [reflexivity | lia].
  - destruct (Z.eqb_spec w 0) as [->|]; [discriminate E | reflexivity].
Qed.

Lemma of_int_truthy (z : Z) : z <> 0 -> JS.falsy (JS.of_int (Some z)) = false.
Proof.
  intros Hz. destruct (of_int_cases z Hz) as [-> | (w & -> & Hp & Hn)];
    [reflexivity|].
  rewrite falsy_inject_Z. destruct (Z.eqb_spec w 0); [lia | reflexivity].
Qed.

Lemma of_int_not_NaN (z : Z) : JS.isNaN (JS.of_int (Some z)) = false.
Proof.
  destruct (Z.eq_dec z 0) as [->|Hz]; [reflexivity|].
  by destruct (of_int_cases z Hz) as [-> | (w & -> & _)].
Qed.

Lemma gtb_inject_Z (w : Z) :
  JS.gtb (JS.Finite (inject_Z w)) (JS.Finite 0) = (0 <? w).
Proof.
  simpl. unfold Qle_bool, inject_Z. simpl. rewrite Z.mul_1_r.
  destruct (Z.leb_spec w 0), (Z.ltb_spec 0 w); simpl; try reflexivity; lia.
Qed.

(** The Number value of an integer is above 0 exactly when the integer
    is. *)
Lemma of_int_positive (z : Z) :
  JS.gtb (JS.of_int (Some z)) (JS.Finite 0) = (0 <? z).
Proof.
  destruct (Z.eq_dec z 0) as [->|Hz]; [reflexivity|].
  destruct (of_int_cases z Hz) as [-> | (w & -> & Hp & Hn)].
  - simpl. destruct (Z.ltb_spec z 0), (Z.ltb_spec 0 z); simpl; try reflexivity; lia.
  - rewrite gtb_inject_Z.
    destruct (Z.ltb_spec 0 w), (Z.ltb_spec 0 z); try reflexivity; lia.
Qed.

Lemma or_number_of_int (o : option Z) (d : JS.number) :
  (forall z, o = Some z -> z <> 0 ->
     JS.or_number (JS.of_int o) d = JS.of_int (Some z))
  /\ (o = None \/ o = Some 0 -> JS.or_number (JS.of_int o) d = d).
Proof.
  split.
  - intros z -> Hz. unfold JS.or_number. by rewrite of_int_truthy.
  - by intros [-> | ->].
Qed.

(** ** The store *)

Section StoreFacts.
Context `{Store}.

Lemma matches_lookup (q : Filter) (doc : Recipe) (k : string) (e : Entry) :
  matches q doc = true -> q !! k = Some e -> entry_holds doc k e = true.
Proof.
  unfold matches. rewrite forallb_forall. intros Hall Hk.
  apply (Hall (k, e)). apply list_elem_of_In.
  by apply elem_of_map_to_list.
Qed.

(** A filter that holds a bare number on a numeric field matches only
    the documents whose field is that number. *)
Lemma matches_exact (q : Filter) (doc : Recipe) (k : string)
  (o : option Q) (n : JS.number) :
  field_value k doc = of_number o ->
  matches q doc = true -> q !! k = Some (Field (Eq n)) ->
  exists x y : Q, o = Some x /\ n = JS.Finite y /\ Qeq x y.
Proof.
  intros Hf Hm Hk. pose proof (matches_lookup _ _ _ _ Hm Hk) as He.
  simpl in He. unfold cond_holds in He. rewrite Hf in He.
  destruct o as [x|]; simpl in He; [|discriminate].
  destruct n as [|b|y]; try discriminate.
  exists x, y. repeat split. by apply Qeq_bool_iff.
Qed.

Lemma handle_respond (e : Endpoint) (params : gmap string string) :
  handle e params = respond (success_of e) (plan_of e params).
Proof. by destruct e. Qed.

Lemma respond_200 (s : option bool) (p : Plan) (body : Envelope) :
  respond s p = Status200 body ->
  throws (query p) = false
  /\ window (skip p) (limit p) (match_set (query p) (sort p)) = Some (res_data body)
  /\ res_total body = length (List.filter (matches (query p)) counted_documents)
  /\ res_page body = page p /\ res_limit body = limit p
  /\ res_success body = s
  /\ castable (query p) = true.
Proof.
  unfold respond, find, countDocuments.
  destruct (throws (query p)); [discriminate|].
  destruct (castable (query p)); [|discriminate]. simpl.
  destruct (window _ _ _) as [l|]; [|discriminate].
  intros [= <-]. by repeat split.
Qed.

Lemma respond_produces (s : option bool) (p : Plan) (data : list Recipe) :
  throws (query p) = false -> castable (query p) = true ->
  window (skip p) (limit p) (match_set (query p) (sort p)) = Some data ->
  respond s p
  = Status200 {| res_success := s; res_page := page p; res_limit := limit p;
                 res_total := length (List.filter (matches (query p)) counted_documents);
                 res_data := data |}.
Proof.
  intros Ht Hc Hw. unfold respond, find, countDocuments.
  by rewrite Ht, Hc, Hw.
Qed.

Lemma window_accepted (s n : Z) (docs : list Recipe) :
  accepted s n = true ->
  window (JS.Finite (inject_Z s)) (JS.Finite (inject_Z n)) docs
  = Some (take (Z.to_nat n) (drop (Z.to_nat s) docs)).
Proof.
  intros Ha. unfold window. rewrite !as_int_inject_Z. by rewrite Ha.
Qed.

Lemma respond_500 (s : option bool) (p : Plan) :
  castable (query p) = false -> respond s p = Status500.
Proof.
  intros Hc. unfold respond, find. rewrite Hc, orb_true_r. reflexivity.
Qed.

End StoreFacts.

Lemma accepted_iff (s n : Z) :
  accepted s n = true
  <-> 0 <= s <= JS.MAX_SAFE_INTEGER /\ 1 <= n <= JS.MAX_SAFE_INTEGER.
Proof.
  unfold accepted. rewrite !andb_true_iff, !Z.leb_le. tauto.
Qed.

(** ** The filter does not read [page] and [limit] *)

Lemma query_same_but_window (e : Endpoint) (a b : gmap string string) :
  same_but_window a b -> query (plan_of e a) = query (plan_of e b).
Proof.
  intros Hs. destruct e; simpl.
  - unfold A.threshold_filters, A.numeric_filter. by same_lookups Hs.
  - by same_lookups Hs.
  - by same_lookups Hs.
Qed.

(** C1. In the three handlers, when the store does not throw, can cast
    the filter and returns a page, the answer is 200 and its [total] is
    the number of documents of the collection, as [countDocuments] reads
    it, that match the filter the handler built.  The [total] of every
    200 answer is that number, whatever [page] and [limit] were: the
    answers to two requests that differ at most in those two parameters
    carry the same [total]. *)
Theorem total_counts_the_filter `{Store}
  (e : Endpoint) (params : gmap string string) :
  let p := plan_of e params in
  (throws (query p) = false -> castable (query p) = true ->
   forall data : list Recipe,
     window (skip p) (limit p) (match_set (query p) (sort p)) = Some data ->
     handle e params
     = Status200
         {| res_success := success_of e;
            res_page := page p; res_limit := limit p;
            res_total := length (List.filter (matches (query p)) counted_documents);
            res_data := data |})
  /\ forall body : Envelope,
       handle e params = Status200 body ->
       res_total body = length (List.filter (matches (query p)) counted_documents)
       /\ forall (params' : gmap string string) (body' : Envelope),
            same_but_window params params' ->
            handle e params' = Status200 body' ->
            res_total body' = res_total body.
Proof.
  intros p. subst p. split.
  - intros Ht Hc data Hw. rewrite handle_respond.
    by apply respond_produces.
  - intros body. rewrite handle_respond. intros Hr.
    apply respond_200 in Hr as (_ & _ & Ht & _). split; [exact Ht|].
    intros params' body' Hs Hr'. rewrite handle_respond in Hr'.
    apply respond_200 in Hr' as (_ & _ & Ht' & _).
    by rewrite Ht, Ht', (query_same_but_window e _ _ Hs).
Qed.

Lemma total_counts_the_filter_witness :
  let first := Sample.params [("cuisine", "American"); ("limit", "1")] in
  let second := Sample.params [("page", "2"); ("limit", "2"); ("cuisine", "American")] in
  let p := plan_of SearchV2 first in
  (throws (Store := Sample.store) (query p) = false
   /\ castable (query p) = true
   /\ window (H := Sample.store) (skip p) (limit p)
        (match_set (H := Sample.store) (query p) (sort p))
      = Some [Sample.recipe "Pie" "American" 5 60])
  /\ (exists body, handle (H := Sample.store) SearchV2 first = Status200 body
        /\ res_total body = 2%nat /\ length (res_data body) = 1%nat)
  /\ (exists body, handle (H := Sample.store) SearchV1 second = Status200 body
        /\ res_total body = 2%nat /\ length (res_data body) = 0%nat)
  /\ (exists body, handle (H := Sample.store) ListRecipes second = Status200 body
        /\ res_total body = 2%nat).
Proof.
  intros first second p.
  assert (Ht : throws (Store := Sample.store) (query p) = false) by reflexivity.
  assert (Hc : castable (query p) = true) by reflexivity.
  assert (Hw : window (H := Sample.store) (skip p) (limit p)
                 (match_set (H := Sample.store) (query p) (sort p))
               = Some [Sample.recipe "Pie" "American" 5 60]) by reflexivity.
  split; [by repeat split|].
  destruct (total_counts_the_filter (H := Sample.store) SearchV2 first)
    as [Hprod _].
  split; [|split].
  - eexists. split; [exact (Hprod Ht Hc _ Hw)|]. split; reflexivity.
  - destruct (total_counts_the_filter (H := Sample.store) SearchV1 second)
      as [Hprod1 _].
    eexists. split; [apply Hprod1; reflexivity|]. split; reflexivity.
  - destruct (total_counts_the_filter (H := Sample.store) ListRecipes second)
      as [Hprod0 _].
    eexists. split; [apply Hprod0; reflexivity|]. reflexivity.
Defined.


(** ** Pagination *)

Lemma plan_page (e : Endpoint) (params : gmap string string) :
  page (plan_of e params)
  = JS.or_number (JS.of_int (JS.parseInt (JS.ToString (params !! "page"))))
      (JS.Finite 1).
Proof. by destruct e. Qed.

Lemma plan_limit (e : Endpoint) (params : gmap string string) :
  limit (plan_of e params)
  = JS.or_number (JS.of_int (JS.parseInt (JS.ToString (params !! "limit"))))
      (JS.Finite 10).
Proof. by destruct e. Qed.

Lemma plan_skip (e : Endpoint) (params : gmap string string) :
  skip (plan_of e params)
  = JS.mul (JS.sub (page (plan_of e params)) (JS.Finite 1))
      (limit (plan_of e params)).
Proof. by destruct e. Qed.

(** The offset of a page [P] and a limit [L] while the arithmetic stays
    among the safe integers. *)
Lemma skip_exact (e : Endpoint) (params : gmap string string) (P L : Z) :
  page (plan_of e params) = JS.Finite (inject_Z P) ->
  limit (plan_of e params) = JS.Finite (inject_Z L) ->
  Z.abs (P - 1) <= JS.MAX_SAFE_INTEGER ->
  Z.abs ((P - 1) * L) <= JS.MAX_SAFE_INTEGER ->
  skip (plan_of e params) = JS.Finite (inject_Z ((P - 1) * L)).
Proof.
  unfold JS.MAX_SAFE_INTEGER. intros HP HL H1 H2.
  rewrite plan_skip, HP, HL.
  change (JS.Finite 1) with (JS.Finite (inject_Z 1)).
  rewrite sub_exact by lia. apply mul_exact. lia.
Qed.

(** The window of a page [P >= 1] and a limit [L >= 1] whose limit and
    offset are safe integers is one the store accepts. *)
Lemma plan_window `{Store} (e : Endpoint) (params : gmap string string)
  (P L : Z) (docs : list Recipe) :
  page (plan_of e params) = JS.Finite (inject_Z P) ->
  limit (plan_of e params) = JS.Finite (inject_Z L) ->
  1 <= P -> 1 <= L <= JS.MAX_SAFE_INTEGER ->
  (P - 1) * L <= JS.MAX_SAFE_INTEGER ->
  window (skip (plan_of e params)) (limit (plan_of e params)) docs
  = Some (take (Z.to_nat L) (drop (Z.to_nat ((P - 1) * L)) docs)).
Proof.
  intros HP HL H1 H2 H3.
  assert (H4 : 0 <= (P - 1) * L) by nia.
  assert (H5 : Z.abs (P - 1) <= JS.MAX_SAFE_INTEGER) by nia.
  rewrite (skip_exact e params P L HP HL H5) by lia.
  rewrite HL. apply window_accepted. apply accepted_iff. lia.
Qed.

(** C2, as stated, fails at [page=0]: [parseInt] gives 0, which [||]
    replaces by 1, so the page is 1 and the offset is 0. *)
Lemma page_zero_counterexample :
  ~ page_passed_through ListRecipes {[ "page" := "0" ]}.
Proof.
  intros Hp. destruct (Hp 0 eq_refl) as [Hpage _].
  vm_compute in Hpage. discriminate.
Qed.

Example page_zero_is_page_one :
  page (plan_of ListRecipes {[ "page" := "0" ]}) = JS.Finite 1
  /\ skip (plan_of ListRecipes {[ "page" := "0" ]}) = JS.Finite 0.
Proof. split; vm_compute; reflexivity. Qed.

(** The page arithmetic is binary64: a page of twenty nines is 1e20 and
    its offset 1e21. *)
Example page_beyond_safe_integers :
  let p := plan_of ListRecipes {[ "page" := "99999999999999999999" ]} in
  page p = JS.Finite 100000000000000000000
  /\ skip p = JS.Finite 1000000000000000000000.
Proof. split; vm_compute; reflexivity. Qed.

(** A limit of 310 digits is [Infinity], and the offset of the first
    page is then [0 * Infinity], which is [NaN]. *)
Example limit_beyond_binary64 :
  let p := plan_of ListRecipes
             {[ "limit" := string_of_list_ascii (repeat "9"%char 310) ]} in
  page p = JS.Finite 1 /\ limit p = JS.Infinity false /\ skip p = JS.NaN.
Proof. by vm_compute. Qed.

(** C2, amended. [page] and [limit] are the Number value of what
    [parseInt] reads when that is a non-zero integer, negatives
    included (the integer itself when it is a safe integer), and the
    defaults 1 and 10 when [parseInt] reads nothing or 0; the offset is
    the binary64 product [(page - 1) * limit], which is the integer
    [(page - 1) * limit] while that stays a safe integer, negative for a
    negative page and a positive limit.  When [page >= 1] and
    [limit >= 1] are integers whose limit and offset are safe integers,
    the [data] of a 200 answer is the full sorted match set without its
    first [offset] documents, cut at [limit], and the answer is 200 when
    the store does not throw and can cast the filter. *)
Theorem pagination_window `{Store}
  (e : Endpoint) (params : gmap string string) :
  let p := plan_of e params in
  let given_page := JS.parseInt (JS.ToString (params !! "page")) in
  let given_limit := JS.parseInt (JS.ToString (params !! "limit")) in
  (forall z, given_page = Some z -> z <> 0 ->
     page p = JS.of_int (Some z)
     /\ (Z.abs z <= JS.MAX_SAFE_INTEGER -> page p = JS.Finite (inject_Z z)))
  /\ (given_page = None \/ given_page = Some 0 -> page p = JS.Finite 1)
  /\ (forall z, given_limit = Some z -> z <> 0 ->
        limit p = JS.of_int (Some z)
        /\ (Z.abs z <= JS.MAX_SAFE_INTEGER -> limit p = JS.Finite (inject_Z z)))
  /\ (given_limit = None \/ given_limit = Some 0 -> limit p = JS.Finite 10)
  /\ skip p = JS.mul (JS.sub (page p) (JS.Finite 1)) (limit p)
  /\ (forall P L : Z,
        page p = JS.Finite (inject_Z P) -> limit p = JS.Finite (inject_Z L) ->
        Z.abs (P - 1) <= JS.MAX_SAFE_INTEGER ->
        Z.abs ((P - 1) * L) <= JS.MAX_SAFE_INTEGER ->
        skip p = JS.Finite (inject_Z ((P - 1) * L))
        /\ (P < 0 -> 0 < L -> (P - 1) * L < 0))
  /\ (forall (P L : Z) (body : Envelope),
        page p = JS.Finite (inject_Z P) -> limit p = JS.Finite (inject_Z L) ->
        1 <= P -> 1 <= L <= JS.MAX_SAFE_INTEGER ->
        (P - 1) * L <= JS.MAX_SAFE_INTEGER ->
        handle e params = Status200 body ->
        res_page body = page p /\ res_limit body = limit p
        /\ res_data body
           = take (Z.to_nat L)
               (drop (Z.to_nat ((P - 1) * L)) (match_set (query p) (sort p)))
        /\ (length (res_data body) <= Z.to_nat L)%nat)
  /\ (forall P L : Z,
        page p = JS.Finite (inject_Z P) -> limit p = JS.Finite (inject_Z L) ->
        1 <= P -> 1 <= L <= JS.MAX_SAFE_INTEGER ->
        (P - 1) * L <= JS.MAX_SAFE_INTEGER ->
        throws (query p) = false -> castable (query p) = true ->
        exists body, handle e params = Status200 body).
Proof.
  intros p given_page given_limit. subst p given_page given_limit.
  split; [|split; [|split; [|split; [|split; [|split; [|split]]]]]].
  - intros z Hz Hnz. rewrite plan_page, Hz.
    destruct (or_number_of_int (Some z) (JS.Finite 1)) as [Hor _].
    rewrite (Hor z eq_refl Hnz). split; [reflexivity|].
    unfold JS.MAX_SAFE_INTEGER. intros Hs. apply of_int_safe. lia.
  - intros Hz. rewrite plan_page.
    by apply (or_number_of_int _ (JS.Finite 1)).
  - intros z Hz Hnz. rewrite plan_limit, Hz.
    destruct (or_number_of_int (Some z) (JS.Finite 10)) as [Hor _].
    rewrite (Hor z eq_refl Hnz). split; [reflexivity|].
    unfold JS.MAX_SAFE_INTEGER. intros Hs. apply of_int_safe. lia.
  - intros Hz. rewrite plan_limit.
    by apply (or_number_of_int _ (JS.Finite 10)).
  - apply plan_skip.
  - intros P L HP HL H1 H2. split; [by apply skip_exact | nia].
  - intros P L body HP HL H1 H2 H3. rewrite handle_respond. intros Hr.
    apply respond_200 in Hr as (_ & Hw & _ & Hpg & Hlm & _).
    rewrite (plan_window e params P L _ HP HL H1 H2 H3) in Hw.
    injection Hw as <-.
    split; [exact Hpg|]. split; [exact Hlm|]. split; [reflexivity|].
    rewrite length_take. lia.
  - intros P L HP HL H1 H2 H3 Ht Hc. rewrite handle_respond.
    eexists. apply respond_produces; [exact Ht | exact Hc |].
    by apply plan_window.
Qed.

Lemma pagination_window_witness :
  let params := Sample.params [("page", "2"); ("limit", "3"); ("sortOrder", "asc")] in
  let p := plan_of ListRecipes params in
  let body := Sample.body_of (handle (H := Sample.store) ListRecipes params) in
  (page p = JS.Finite (inject_Z 2) /\ limit p = JS.Finite (inject_Z 3)
   /\ handle (H := Sample.store) ListRecipes params = Status200 body)
  /\ skip p = JS.Finite 3
  /\ res_data body = [Sample.recipe "Pie" "American" 5 60].
Proof.
  intros params p body.
  assert (Hp : page p = JS.Finite (inject_Z 2)) by reflexivity.
  assert (Hl : limit p = JS.Finite (inject_Z 3)) by reflexivity.
  assert (Hr : handle (H := Sample.store) ListRecipes params = Status200 body)
    by reflexivity.
  split; [by repeat split|]. split; [reflexivity|].
  destruct (pagination_window (H := Sample.store) ListRecipes params)
    as (_ & _ & _ & _ & _ & _ & Hdata & _).
  destruct (Hdata 2 3 body Hp Hl ltac:(lia) ltac:(vm_compute; split; discriminate)
              ltac:(vm_compute; discriminate) Hr) as (_ & _ & -> & _).
  reflexivity.
Defined.

(** ** Shape A: the threshold blocks and the numeric pass *)

Lemma handleNumberFilter_parsable (v : string) :
  JS.isNaN (JS.parseFloat v) = false ->
  A.handleNumberFilter v = Some (JS.parseFloat v).
Proof.
  intros Hn. unfold A.handleNumberFilter.
  destruct (String.eqb_spec v "null") as [->|_]; [discriminate|].
  destruct (String.eqb_spec v "undefined") as [->|_]; [discriminate|].
  simpl. by rewrite Hn.
Qed.

Lemma handleNumberFilter_not_NaN (v : string) (n : JS.number) :
  A.handleNumberFilter v = Some n -> JS.isNaN n = false.
Proof.
  unfold A.handleNumberFilter.
  destruct (_ || _); [discriminate|].
  destruct (JS.isNaN (JS.parseFloat v)) eqn:Hn; [discriminate|].
  by intros [= <-].
Qed.

Lemma numeric_filter_other (params : gmap string string) (q : Filter)
  (f k : string) :
  f <> k -> A.numeric_filter params q f !! k = q !! k.
Proof.
  intros Hne. unfold A.numeric_filter.
  destruct (params !! f) as [v|]; [|done].
  destruct (A.handleNumberFilter v); [|done].
  by rewrite lookup_insert_ne.
Qed.

Lemma numeric_filter_set (params : gmap string string) (q : Filter)
  (f v : string) (n : JS.number) :
  params !! f = Some v -> A.handleNumberFilter v = Some n ->
  A.numeric_filter params q f = <[f := Field (Eq n)]> q.
Proof. intros Hf Hv. unfold A.numeric_filter. by rewrite Hf, Hv. Qed.

Lemma numeric_filter_insert (params : gmap string string) (q : Filter)
  (f k : string) (e : Entry) :
  f <> k ->
  A.numeric_filter params (<[k := e]> q) f
  = <[k := e]> (A.numeric_filter params q f).
Proof.
  intros Hne. unfold A.numeric_filter.
  destruct (params !! f) as [v|]; [|done].
  destruct (A.handleNumberFilter v); [|done].
  by apply insert_insert_ne.
Qed.

Lemma numeric_filter_delete (params : gmap string string) (q : Filter)
  (f k : string) :
  f <> k ->
  A.numeric_filter (delete k params) q f = A.numeric_filter params q f.
Proof. intros Hne. unfold A.numeric_filter. by rewrite lookup_delete_ne. Qed.

(** C3. With a [rating] that [parseFloat] reads, the threshold block
    writes [{ $gte: n }] under the key [rating] and the numeric pass then
    writes the bare [n] under the same key: the filter handed to the
    store holds the exact-equality condition, and a document matches it
    only if its rating is [n]. *)
Theorem rating_exact_overrides_threshold `{Store}
  (params : gmap string string) (v : string) :
  params !! "rating" = Some v ->
  JS.isNaN (JS.parseFloat v) = false ->
  let n := JS.parseFloat v in
  A.threshold_filters params !! "rating" = Some (Field (Gte n))
  /\ query (A.getRecipes_plan params) !! "rating" = Some (Field (Eq n))
  /\ forall doc : Recipe,
       matches (query (A.getRecipes_plan params)) doc = true ->
       exists x y : Q, rating doc = Some x /\ n = JS.Finite y /\ Qeq x y.
Proof.
  intros Hr Hn n.
  assert (Hq : query (A.getRecipes_plan params) !! "rating" = Some (Field (Eq n))).
  { simpl.
    rewrite (numeric_filter_set params _ "rating" v n Hr
               (handleNumberFilter_parsable v Hn)).
    apply lookup_insert_eq. }
  split; [|split; [exact Hq|]].
  - unfold A.threshold_filters. rewrite Hr, (parseFloat_nonempty v Hn).
    unfold insert_if at 1.
    destruct (JS.truthy (params !! "maxTotalTime")).
    + rewrite lookup_insert_ne by discriminate. apply lookup_insert_eq.
    + apply lookup_insert_eq.
  - intros doc Hm.
    apply (matches_exact _ doc "rating" (rating doc) n eq_refl Hm Hq).
Qed.

Lemma rating_exact_overrides_threshold_witness :
  let params := Sample.params [("rating", "4")] in
  (params !! "rating" = Some "4" /\ JS.isNaN (JS.parseFloat "4") = false)
  /\ query (A.getRecipes_plan params) !! "rating"
     = Some (Field (Eq (JS.Finite 4)))
  /\ res_data (Sample.body_of (A.getRecipes (H := Sample.store) params))
     = [Sample.recipe "Salad" "Greek" 4 15].
Proof.
  intros params. split; [by split|]. split; [|reflexivity].
  destruct (rating_exact_overrides_threshold (H := Sample.store) params "4"
              eq_refl eq_refl) as (_ & -> & _).
  reflexivity.
Defined.

Lemma parseInt_nonempty (m : string) (z : Z) :
  JS.parseInt m = Some z -> JS.truthy (Some m) = true.
Proof. destruct m; [discriminate | reflexivity]. Qed.

Lemma threshold_filters_max (params : gmap string string) (m : string) :
  params !! "maxTotalTime" = Some m -> JS.truthy (Some m) = true ->
  A.threshold_filters params
  = <["total_time" := Field (Lte (JS.of_int (JS.parseInt m)))]>
      (A.threshold_filters (delete "maxTotalTime" params)).
Proof.
  intros Hm Ht. unfold A.threshold_filters.
  rewrite lookup_delete_eq, !lookup_delete_ne by discriminate.
  rewrite Hm, Ht. reflexivity.
Qed.

(** C9. With a [maxTotalTime] that [parseInt] reads and a [total_time]
    that [parseFloat] reads, the threshold block writes [{ $lte: z }]
    under the key [total_time] ([z] being the Number value of the integer
    read, the integer itself when it is a safe integer) and the numeric
    pass then writes the bare number under the same key: the filter
    holds the exact-equality condition, a document matches only if its
    total time is that number, and the filter is the one built without
    [maxTotalTime]. *)
Theorem total_time_exact_overrides_max `{Store}
  (params : gmap string string) (m t : string) (z : Z) :
  params !! "maxTotalTime" = Some m ->
  JS.parseInt m = Some z ->
  params !! "total_time" = Some t ->
  JS.isNaN (JS.parseFloat t) = false ->
  let n := JS.parseFloat t in
  A.threshold_filters params !! "total_time"
    = Some (Field (Lte (JS.of_int (Some z))))
  /\ query (A.getRecipes_plan params) !! "total_time" = Some (Field (Eq n))
  /\ (forall doc : Recipe,
        matches (query (A.getRecipes_plan params)) doc = true ->
        exists x y : Q, total_time doc = Some x /\ n = JS.Finite y /\ Qeq x y)
  /\ query (A.getRecipes_plan params)
     = query (A.getRecipes_plan (delete "maxTotalTime" params))
  /\ (Z.abs z <= JS.MAX_SAFE_INTEGER ->
      A.threshold_filters params !! "total_time"
      = Some (Field (Lte (JS.Finite (inject_Z z))))).
Proof.
  intros Hm Hz Ht Hn n.
  pose proof (threshold_filters_max params m Hm (parseInt_nonempty m z Hz)) as Hthr.
  rewrite Hz in Hthr.
  pose proof (numeric_filter_set params) as Hset.
  specialize (fun q => Hset q "total_time" t n Ht (handleNumberFilter_parsable t Hn)).
  assert (Hq : query (A.getRecipes_plan params) !! "total_time"
               = Some (Field (Eq n))).
  { simpl. rewrite numeric_filter_other by discriminate.
    rewrite Hset. apply lookup_insert_eq. }
  split; [rewrite Hthr; apply lookup_insert_eq|].
  split; [exact Hq|]. split; [|split].
  - intros doc Hd.
    apply (matches_exact _ doc "total_time" (total_time doc) n eq_refl Hd Hq).
  - simpl. rewrite !numeric_filter_delete by discriminate.
    rewrite Hthr, !numeric_filter_insert by discriminate.
    rewrite !Hset. by rewrite insert_insert_eq.
  - unfold JS.MAX_SAFE_INTEGER. intros Hs.
    rewrite Hthr, lookup_insert_eq, of_int_safe by lia. reflexivity.
Qed.

Lemma total_time_exact_overrides_max_witness :
  let params := Sample.params [("maxTotalTime", "10"); ("total_time", "60")] in
  (params !! "maxTotalTime" = Some "10" /\ JS.parseInt "10" = Some 10
   /\ params !! "total_time" = Some "60"
   /\ JS.isNaN (JS.parseFloat "60") = false)
  /\ query (A.getRecipes_plan params) !! "total_time"
     = Some (Field (Eq (JS.Finite 60)))
  /\ res_data (Sample.body_of (A.getRecipes (H := Sample.store) params))
     = [Sample.recipe "Pie" "American" 5 60].
Proof.
  intros params. split; [by repeat split|]. split; [|reflexivity].
  destruct (total_time_exact_overrides_max (H := Sample.store) params
              "10" "60" 10 eq_refl eq_refl eq_refl eq_refl) as (_ & -> & _).
  reflexivity.
Defined.

(** ** Shape A: the strings [null] and [undefined] *)

(** The numeric pass drops [null] and [undefined]: on [prep_time] and
    [cook_time], which no other block writes, no filter is left. *)
Lemma null_dropped_by_numeric_pass (params : gmap string string) (f v : string) :
  f = "prep_time" \/ f = "cook_time" ->
  v = "null" \/ v = "undefined" ->
  params !! f = Some v ->
  query (A.getRecipes_plan params) !! f = None.
Proof.
  intros Hf Hv Hp.
  assert (Hskip : forall q, A.numeric_filter params q f = q).
  { intros q. unfold A.numeric_filter. rewrite Hp. by destruct Hv as [-> | ->]. }
  assert (Hthr : A.threshold_filters params !! f = None).
  { unfold A.threshold_filters, insert_if.
    destruct Hf as [-> | ->];
      repeat match goal with |- context [if ?b then _ else _] => destruct b end;
      rewrite ?lookup_insert_ne by discriminate; apply lookup_empty. }
  simpl. destruct Hf as [-> | ->].
  - rewrite !numeric_filter_other by discriminate. by rewrite Hskip.
  - rewrite !numeric_filter_other by discriminate. rewrite Hskip.
    by rewrite numeric_filter_other by discriminate.
Qed.

(** The same for [total_time], when [maxTotalTime] is not given. *)
Lemma null_total_time_dropped (params : gmap string string) (v : string) :
  v = "null" \/ v = "undefined" ->
  params !! "total_time" = Some v ->
  params !! "maxTotalTime" = None ->
  query (A.getRecipes_plan params) !! "total_time" = None.
Proof.
  intros Hv Hp Hm.
  assert (Hskip : forall q, A.numeric_filter params q "total_time" = q).
  { intros q. unfold A.numeric_filter. rewrite Hp. by destruct Hv as [-> | ->]. }
  simpl. rewrite numeric_filter_other by discriminate. rewrite Hskip.
  rewrite !numeric_filter_other by discriminate.
  unfold A.threshold_filters, insert_if. rewrite Hm. simpl.
  repeat match goal with |- context [if ?b then _ else _] => destruct b end;
    rewrite ?lookup_insert_ne by discriminate; apply lookup_empty.
Qed.

(** C4, at [rating=null] and at [rating=undefined]: the numeric pass
    drops the value, but the threshold block has already written
    [{ $gte: NaN }] under the key [rating], and that filter stays. *)
Theorem rating_null_keeps_threshold :
  query (A.getRecipes_plan {[ "rating" := "null" ]})
    = {[ "rating" := Field (Gte JS.NaN) ]}
  /\ query (A.getRecipes_plan {[ "rating" := "undefined" ]})
    = {[ "rating" := Field (Gte JS.NaN) ]}
  /\ query (A.getRecipes_plan {[ "rating" := "null" ]}) !! "rating" <> None.
Proof. repeat split; vm_compute; congruence. Qed.

(** ** The second search handler: operators *)

Lemma insert_if_other (b : bool) (k k' : string) (e : Entry) (q : Filter) :
  k <> k' -> insert_if b k e q !! k' = q !! k'.
Proof. intros Hne. destruct b; simpl; [by rewrite lookup_insert_ne | done]. Qed.

Lemma insert_if_same (b : bool) (k : string) (e : Entry) (q : Filter) :
  insert_if b k e q !! k = if b then Some e else q !! k.
Proof. destruct b; simpl; [apply lookup_insert_eq | done]. Qed.

Lemma operator_filter_other (value op : option string) (dflt key k : string)
  (q : Filter) :
  key <> k -> B2.operator_filter value op dflt key q !! k = q !! k.
Proof.
  intros Hne. unfold B2.operator_filter.
  destruct (JS.truthy value); [|done].
  destruct (B2.buildOperatorQuery _ _); [|done].
  by rewrite lookup_insert_ne.
Qed.

Lemma operator_filter_same (value op : option string) (dflt key : string)
  (q : Filter) :
  q !! key = None ->
  B2.operator_filter value op dflt key q !! key
  = if JS.truthy value
    then B2.buildOperatorQuery (JS.ToString value) (JS.or_string op dflt)
    else None.
Proof.
  intros Hq. unfold B2.operator_filter.
  destruct (JS.truthy value); [|done].
  destruct (B2.buildOperatorQuery _ _); [|done].
  apply lookup_insert_eq.
Qed.

Lemma buildOperatorQuery_NaN (v op : string) :
  JS.isNaN (JS.parseFloat v) = true -> B2.buildOperatorQuery v op = None.
Proof. intros Hn. unfold B2.buildOperatorQuery. by rewrite Hn. Qed.

Lemma buildOperatorQuery_other (v op : string) :
  JS.isNaN (JS.parseFloat v) = false ->
  op <> "gte" -> op <> "lte" -> op <> "eq" ->
  B2.buildOperatorQuery v op = Some (Field (Gte (JS.parseFloat v))).
Proof.
  intros Hn H1 H2 H3. unfold B2.buildOperatorQuery. rewrite Hn.
  destruct (String.eqb_spec op "gte"); [done|].
  destruct (String.eqb_spec op "lte"); [done|].
  by destruct (String.eqb_spec op "eq").
Qed.

Lemma or_string_given (op d : string) : op <> "" -> JS.or_string (Some op) d = op.
Proof. by destruct op. Qed.

Lemma or_string_omitted (o : option string) (d : string) :
  JS.truthy o = false -> JS.or_string o d = d.
Proof. intros Ht. unfold JS.or_string. by rewrite Ht. Qed.

Lemma operator_filter_selected (params : gmap string string) (q : Filter)
  (param opParam key dflt : string) (omitted : JS.number -> Cond) :
  (forall v, JS.isNaN (JS.parseFloat v) = false ->
     B2.buildOperatorQuery v dflt = Some (Field (omitted (JS.parseFloat v)))) ->
  q !! key
  = (if JS.truthy (params !! param)
     then B2.buildOperatorQuery (JS.ToString (params !! param))
            (JS.or_string (params !! opParam) dflt)
     else None) ->
  operator_selected params q param opParam key omitted.
Proof.
  intros Hd Hq. split.
  - intros Ht. by rewrite Hq, Ht.
  - intros v Hv n. subst n. rewrite Hv in Hq.
    change (JS.ToString (Some v)) with v in Hq. split.
    + intros Hn. rewrite Hq. destruct (JS.truthy (Some v)); [|done].
      by apply buildOperatorQuery_NaN.
    + intros Hn. rewrite (parseFloat_nonempty v Hn) in Hq.
      repeat split.
      * intros Ho. rewrite Hq, Ho. simpl.
        unfold B2.buildOperatorQuery. by rewrite Hn.
      * intros Ho. rewrite Hq, Ho. simpl.
        unfold B2.buildOperatorQuery. by rewrite Hn.
      * intros Ho. rewrite Hq, Ho. simpl.
        unfold B2.buildOperatorQuery. by rewrite Hn.
      * intros Ho. rewrite Hq, (or_string_omitted _ _ Ho). by apply Hd.
      * intros op Ho H0 H1 H2 H3.
        rewrite Hq, Ho, (or_string_given op dflt H0).
        by apply buildOperatorQuery_other.
Qed.

(** C5. In the second search handler, for [rating], [calories] (written
    under [nutrients.calories]) and [total_time]: the companion operator
    chooses [$gte], [$lte] or the bare number; without an operator
    [rating] and [calories] use [$gte] and [total_time] uses [$lte]; an
    operator that is none of the three gives [$gte]; and a value that
    [parseFloat] does not read leaves no filter under the key. *)
Theorem operators_select_comparison (params : gmap string string) :
  let q := query (B2.searchRecipes_plan params) in
  operator_selected params q "rating" "ratingOp" "rating" Gte
  /\ operator_selected params q "calories" "caloriesOp" "nutrients.calories" Gte
  /\ operator_selected params q "total_time" "timeOp" "total_time" Lte.
Proof.
  intros q. subst q. simpl.
  assert (Hgte : forall v, JS.isNaN (JS.parseFloat v) = false ->
            B2.buildOperatorQuery v "gte" = Some (Field (Gte (JS.parseFloat v)))).
  { intros v Hn. unfold B2.buildOperatorQuery. by rewrite Hn. }
  assert (Hlte : forall v, JS.isNaN (JS.parseFloat v) = false ->
            B2.buildOperatorQuery v "lte" = Some (Field (Lte (JS.parseFloat v)))).
  { intros v Hn. unfold B2.buildOperatorQuery. by rewrite Hn. }
  split; [|split].
  - apply (operator_filter_selected _ _ _ _ _ "gte"); [exact Hgte|].
    rewrite !operator_filter_other by discriminate.
    apply operator_filter_same.
    rewrite !insert_if_other by discriminate. apply lookup_empty.
  - apply (operator_filter_selected _ _ _ _ _ "gte"); [exact Hgte|].
    rewrite operator_filter_other by discriminate.
    apply operator_filter_same.
    rewrite operator_filter_other by discriminate.
    rewrite !insert_if_other by discriminate. apply lookup_empty.
  - apply (operator_filter_selected _ _ _ _ _ "lte"); [exact Hlte|].
    apply operator_filter_same.
    rewrite !operator_filter_other by discriminate.
    rewrite !insert_if_other by discriminate. apply lookup_empty.
Qed.

Lemma operators_select_comparison_witness :
  let params := Sample.params [("rating", "4"); ("ratingOp", "lte");
                               ("total_time", "30"); ("calories", "abc")] in
  let q := query (B2.searchRecipes_plan params) in
  q !! "rating" = Some (Field (Lte (JS.Finite 4)))
  /\ q !! "total_time" = Some (Field (Lte (JS.Finite 30)))
  /\ q !! "nutrients.calories" = None.
Proof.
  intros params q.
  destruct (operators_select_comparison params) as ((_ & Hr) & (_ & Hc) & (_ & Ht)).
  split; [|split].
  - destruct (Hr "4" eq_refl) as [_ Hok].
    destruct (Hok eq_refl) as (_ & Hlte & _). exact (Hlte eq_refl).
  - destruct (Ht "30" eq_refl) as [_ Hok].
    destruct (Hok eq_refl) as (_ & _ & _ & Hom & _). exact (Hom eq_refl).
  - destruct (Hc "abc" eq_refl) as [Hnan _]. exact (Hnan eq_refl).
Defined.

(** ** The first search handler: guarded thresholds *)

Lemma between_1_5 (r : JS.number) :
  JS.geb r (JS.Finite 1) && JS.leb r (JS.Finite 5) = true
  <-> exists x : Q, r = JS.Finite x /\ Qle 1 x /\ Qle x 5.
Proof.
  split.
  - destruct r as [|b|x]; simpl; [done|by destruct b|].
    intros [H1 H5]%andb_true_iff. exists x.
    split; [done|]. split; by apply Qle_bool_iff.
  - intros (x & -> & H1 & H5). simpl.
    apply andb_true_iff. split; by apply Qle_bool_iff.
Qed.

Lemma positive_int (o : option Z) :
  negb (JS.isNaN (JS.of_int o)) && JS.gtb (JS.of_int o) (JS.Finite 0) = true
  <-> exists z : Z, o = Some z /\ 0 < z.
Proof.
  destruct o as [z|].
  - rewrite of_int_not_NaN, of_int_positive. cbn [negb andb].
    destruct (Z.ltb_spec 0 z); split.
    + intros _. by exists z.
    + done.
    + done.
    + intros (z' & [= <-] & Hz). lia.
  - split; [done | by intros (z & Hz & _)].
Qed.

Lemma B1_rating (params : gmap string string) :
  let r := JS.parseFloat (JS.ToString (params !! "minRating")) in
  query (B1.searchRecipes_plan params) !! "rating"
  = if JS.truthy (params !! "minRating")
       && (negb (JS.isNaN r) && JS.geb r (JS.Finite 1) && JS.leb r (JS.Finite 5))
    then Some (Field (Gte r)) else None.
Proof.
  simpl.
  destruct (JS.truthy (params !! "maxCookTime"));
    destruct (JS.truthy (params !! "maxPrepTime"));
    destruct (JS.truthy (params !! "minRating"));
    rewrite ?insert_if_other by discriminate;
    rewrite ?insert_if_same;
    rewrite ?insert_if_other by discriminate;
    simpl; by rewrite ?lookup_empty.
Qed.

Lemma B1_prep_time (params : gmap string string) :
  let t := JS.parseInt (JS.ToString (params !! "maxPrepTime")) in
  query (B1.searchRecipes_plan params) !! "prep_time"
  = if JS.truthy (params !! "maxPrepTime")
       && (negb (JS.isNaN (JS.of_int t)) && JS.gtb (JS.of_int t) (JS.Finite 0))
    then Some (Field (Lte (JS.of_int t))) else None.
Proof.
  simpl.
  destruct (JS.truthy (params !! "maxCookTime"));
    destruct (JS.truthy (params !! "maxPrepTime"));
    destruct (JS.truthy (params !! "minRating"));
    rewrite ?insert_if_other by discriminate;
    rewrite ?insert_if_same;
    rewrite ?insert_if_other by discriminate;
    simpl; by rewrite ?lookup_empty.
Qed.

Lemma B1_cook_time (params : gmap string string) :
  let t := JS.parseInt (JS.ToString (params !! "maxCookTime")) in
  query (B1.searchRecipes_plan params) !! "cook_time"
  = if JS.truthy (params !! "maxCookTime")
       && (negb (JS.isNaN (JS.of_int t)) && JS.gtb (JS.of_int t) (JS.Finite 0))
    then Some (Field (Lte (JS.of_int t))) else None.
Proof.
  simpl.
  destruct (JS.truthy (params !! "maxCookTime"));
    destruct (JS.truthy (params !! "maxPrepTime"));
    destruct (JS.truthy (params !! "minRating"));
    rewrite ?insert_if_other by discriminate;
    rewrite ?insert_if_same;
    rewrite ?insert_if_other by discriminate;
    simpl; by rewrite ?lookup_empty.
Qed.

Lemma Qle_bool_false (x y : Q) : Qle_bool x y = false -> ~ Qle x y.
Proof. intros Hb Hle. apply Qle_bool_iff in Hle. congruence. Qed.

Lemma B1_rating_iff (params : gmap string string) (c : Entry) :
  query (B1.searchRecipes_plan params) !! "rating" = Some c
  <-> exists (v : string) (x : Q),
        params !! "minRating" = Some v /\ JS.parseFloat v = JS.Finite x
        /\ Qle 1 x /\ Qle x 5 /\ c = Field (Gte (JS.Finite x)).
Proof.
  rewrite B1_rating. cbv zeta.
  destruct (params !! "minRating") as [v|];
    [|split; [discriminate | by intros (v & x & Hv & _)]].
  change (JS.ToString (Some v)) with v.
  destruct (JS.parseFloat v) as [|b|x] eqn:Hr.
  - rewrite andb_false_r.
    split; [discriminate | intros (v' & x & [= <-] & Hx & _); congruence].
  - replace (JS.truthy (Some v) && _) with false
      by (destruct b; simpl; by rewrite andb_false_r).
    split; [discriminate | intros (v' & x & [= <-] & Hx & _); congruence].
  - assert (Ht : JS.truthy (Some v) = true)
      by (apply parseFloat_nonempty; by rewrite Hr).
    rewrite Ht. simpl.
    destruct (Qle_bool 1 x) eqn:H1; destruct (Qle_bool x 5) eqn:H5; simpl.
    + split.
      * intros [= <-]. exists v, x. repeat split; try done; by apply Qle_bool_iff.
      * intros (v' & x' & [= <-] & Hx & _ & _ & ->). congruence.
    + split; [discriminate|].
      intros (v' & x' & [= <-] & Hx & _ & Hle & _).
      rewrite Hr in Hx. injection Hx as <-. by apply Qle_bool_false in H5.
    + split; [discriminate|].
      intros (v' & x' & [= <-] & Hx & Hle & _).
      rewrite Hr in Hx. injection Hx as <-. by apply Qle_bool_false in H1.
    + split; [discriminate|].
      intros (v' & x' & [= <-] & Hx & Hle & _).
      rewrite Hr in Hx. injection Hx as <-. by apply Qle_bool_false in H1.
Qed.

Lemma B1_time_iff (params : gmap string string) (param : string) (o : option Entry) :
  o = (let t := JS.parseInt (JS.ToString (params !! param)) in
       if JS.truthy (params !! param)
          && (negb (JS.isNaN (JS.of_int t)) && JS.gtb (JS.of_int t) (JS.Finite 0))
       then Some (Field (Lte (JS.of_int t))) else None) ->
  forall c : Entry,
    o = Some c
    <-> exists (v : string) (z : Z),
          params !! param = Some v /\ JS.parseInt v = Some z /\ 0 < z
          /\ c = Field (Lte (JS.of_int (Some z))).
Proof.
  intros -> c. cbv zeta.
  destruct (params !! param) as [v|];
    [|split; [discriminate | by intros (v & z & Hv & _)]].
  change (JS.ToString (Some v)) with v.
  destruct (negb _ && _) eqn:Hpos.
  - apply positive_int in Hpos as (z & Hz & Hlt).
    rewrite (parseInt_nonempty v z Hz), Hz. cbn [andb]. split.
    + intros [= <-]. by exists v, z.
    + intros (v' & z' & [= <-] & Hz' & _ & ->). congruence.
  - rewrite andb_false_r. split; [discriminate|].
    intros (v' & z & [= <-] & Hz & Hlt & _).
    assert (Hex : exists z, JS.parseInt v = Some z /\ 0 < z) by eauto.
    apply positive_int in Hex. congruence.
Qed.

(** C6. In the first search handler the key [rating] holds a filter
    exactly when [minRating] parses to a number of [[1, 5]], and the
    filter is then [{ $gte: value }]: nothing is written for
    [minRating=6] or for a value [parseFloat] does not read.  The keys
    [prep_time] and [cook_time] hold a filter exactly when [maxPrepTime],
    [maxCookTime] parse to an integer above 0, and it is then
    [{ $lte: value }].  The values are the binary64 numbers the handler
    compares: [minRating=5.0000000000000001] is read as 5 and written. *)
Theorem guarded_thresholds (params : gmap string string) :
  let q := query (B1.searchRecipes_plan params) in
  (forall c : Entry,
     q !! "rating" = Some c
     <-> exists (v : string) (x : Q),
           params !! "minRating" = Some v /\ JS.parseFloat v = JS.Finite x
           /\ Qle 1 x /\ Qle x 5 /\ c = Field (Gte (JS.Finite x)))
  /\ (params !! "minRating" = Some "6" -> q !! "rating" = None)
  /\ (forall v : string, params !! "minRating" = Some v ->
        JS.isNaN (JS.parseFloat v) = true -> q !! "rating" = None)
  /\ (forall c : Entry,
        q !! "prep_time" = Some c
        <-> exists (v : string) (z : Z),
              params !! "maxPrepTime" = Some v /\ JS.parseInt v = Some z
              /\ 0 < z /\ c = Field (Lte (JS.of_int (Some z))))
  /\ (forall c : Entry,
        q !! "cook_time" = Some c
        <-> exists (v : string) (z : Z),
              params !! "maxCookTime" = Some v /\ JS.parseInt v = Some z
              /\ 0 < z /\ c = Field (Lte (JS.of_int (Some z)))).
Proof.
  intros q. subst q. repeat split.
  - by apply B1_rating_iff.
  - by apply B1_rating_iff.
  - intros H6. rewrite B1_rating, H6. reflexivity.
  - intros v Hv Hn. rewrite B1_rating, Hv. cbv zeta.
    change (JS.ToString (Some v)) with v. rewrite Hn. simpl.
    by rewrite andb_false_r.
  - by apply (B1_time_iff params "maxPrepTime" _ (B1_prep_time params)).
  - by apply (B1_time_iff params "maxPrepTime" _ (B1_prep_time params)).
  - by apply (B1_time_iff params "maxCookTime" _ (B1_cook_time params)).
  - by apply (B1_time_iff params "maxCookTime" _ (B1_cook_time params)).
Qed.

Lemma guarded_thresholds_witness :
  let params := Sample.params [("minRating", "6"); ("maxPrepTime", "30");
                               ("maxCookTime", "0")] in
  let q := query (B1.searchRecipes_plan params) in
  let edge := Sample.params [("minRating", "5.0000000000000001")] in
  params !! "minRating" = Some "6"
  /\ q !! "rating" = None
  /\ q !! "prep_time" = Some (Field (Lte (JS.Finite 30)))
  /\ q !! "cook_time" = None
  /\ JS.parseFloat "5.0000000000000001" = JS.Finite 5
  /\ query (B1.searchRecipes_plan edge) !! "rating"
     = Some (Field (Gte (JS.Finite 5))).
Proof.
  intros params q edge.
  destruct (guarded_thresholds params) as (_ & H6 & _ & Hprep & _).
  destruct (guarded_thresholds edge) as (Hedge & _).
  split; [reflexivity|]. split; [exact (H6 eq_refl)|].
  split; [|split; [reflexivity|split; [reflexivity|]]].
  - apply Hprep. exists "30", 30. by repeat split.
  - apply Hedge. exists "5.0000000000000001", 5%Q. by repeat split.
Defined.

(** A [minRating] written with more digits than a binary64 number holds
    is the number [parseFloat] rounds it to: just above 5 it is 5 and
    just below 1 it is 1, and the filter is written; from the next
    binary64 number on it is not. *)
Example minRating_rounds_into_range :
  query (B1.searchRecipes_plan (Sample.params [("minRating", "0.99999999999999999")]))
    !! "rating" = Some (Field (Gte (JS.Finite 1)))
  /\ query (B1.searchRecipes_plan (Sample.params [("minRating", "5.000000000000001")]))
       !! "rating" = None
  /\ query (B1.searchRecipes_plan (Sample.params [("minRating", "0.9999999999999999")]))
       !! "rating" = None.
Proof. by repeat split. Qed.

(** ** Sorting *)

Lemma plan_sort (e : Endpoint) (params : gmap string string) :
  sort (plan_of e params)
  = (JS.or_string (params !! "sortBy") "rating",
     if bool_decide (params !! "sortOrder" = Some "asc") then 1 else -1).
Proof. by destruct e. Qed.

(** C7. In the three handlers the direction given to the store is 1
    (ascending) when [sortOrder] is the string [asc] and -1 (descending)
    for every other value and when it is missing; the sort field is
    [rating] when [sortBy] is missing, and [sortBy] itself when it is a
    non-empty string.  The [data] of a 200 answer is cut from the match
    set sorted by that field and direction. *)
Theorem sort_descending_unless_asc `{Store}
  (e : Endpoint) (params : gmap string string) :
  let s := sort (plan_of e params) in
  (params !! "sortOrder" = Some "asc" -> snd s = 1)
  /\ (params !! "sortOrder" <> Some "asc" -> snd s = -1)
  /\ (params !! "sortBy" = None -> fst s = "rating")
  /\ (forall f : string, params !! "sortBy" = Some f -> f <> "" -> fst s = f)
  /\ (forall body : Envelope, handle e params = Status200 body ->
        window (skip (plan_of e params)) (limit (plan_of e params))
          (sort_docs (fst s) (snd s)
             (List.filter (matches (query (plan_of e params))) documents))
        = Some (res_data body)).
Proof.
  intros s. subst s. rewrite plan_sort. simpl. repeat split.
  - intros Ha. by rewrite bool_decide_eq_true_2.
  - intros Ha. by rewrite bool_decide_eq_false_2.
  - by intros ->.
  - intros f -> Hf. by apply or_string_given.
  - intros body. rewrite handle_respond. intros Hr.
    apply respond_200 in Hr as (_ & Hw & _).
    unfold match_set in Hw. by rewrite plan_sort in Hw.
Qed.

Lemma sort_descending_unless_asc_witness :
  let upper := Sample.params [("sortOrder", "ASC"); ("limit", "2")] in
  let lower := Sample.params [("sortOrder", "asc"); ("limit", "2")] in
  (upper !! "sortOrder" <> Some "asc" /\ upper !! "sortBy" = None
   /\ lower !! "sortOrder" = Some "asc")
  /\ sort (plan_of SearchV2 upper) = ("rating", -1)
  /\ sort (plan_of SearchV2 lower) = ("rating", 1)
  /\ map title (res_data (Sample.body_of (handle (H := Sample.store) SearchV2 upper)))
     = ["Pie"; "Salad"]
  /\ map title (res_data (Sample.body_of (handle (H := Sample.store) SearchV2 lower)))
     = ["Toast"; "Stew"].
Proof.
  intros upper lower.
  assert (Hu : upper !! "sortOrder" <> Some "asc") by (vm_compute; discriminate).
  assert (Hb : upper !! "sortBy" = None) by reflexivity.
  assert (Hl : lower !! "sortOrder" = Some "asc") by reflexivity.
  split; [by repeat split|].
  destruct (sort_descending_unless_asc (H := Sample.store) SearchV2 upper)
    as (_ & Hdesc & Hfield & _).
  destruct (sort_descending_unless_asc (H := Sample.store) SearchV2 lower)
    as (Hasc & _).
  split; [|split; [|split; reflexivity]].
  - rewrite (surjective_pairing (sort (plan_of SearchV2 upper))).
    by rewrite (Hdesc Hu), (Hfield Hb).
  - rewrite (surjective_pairing (sort (plan_of SearchV2 lower))).
    by rewrite (Hasc Hl).
Defined.

(** ** The seed normalisation *)



(** ** Empty parameters *)

Lemma same_or_empty_parseInt (x y : option string) :
  same_or_empty x y ->
  JS.parseInt (JS.ToString x) = JS.parseInt (JS.ToString y).
Proof. by intros [-> | [-> ->]]. Qed.

Lemma same_or_empty_or_string (x y : option string) (d : string) :
  same_or_empty x y -> JS.or_string x d = JS.or_string y d.
Proof. by intros [-> | [-> ->]]. Qed.

Lemma same_or_empty_asc (x y : option string) :
  same_or_empty x y ->
  bool_decide (x = Some "asc") = bool_decide (y = Some "asc").
Proof. by intros [-> | [-> ->]]. Qed.

Lemma same_or_empty_insert_if (x y : option string) (key : string)
  (f : option string -> Entry) (q q' : Filter) :
  same_or_empty x y -> q = q' ->
  insert_if (JS.truthy x) key (f x) q = insert_if (JS.truthy y) key (f y) q'.
Proof. by intros [-> | [-> ->]] ->. Qed.

Lemma same_or_empty_guarded (x y : option string)
  (f : option string -> Filter -> Filter) (q q' : Filter) :
  same_or_empty x y -> q = q' ->
  (if JS.truthy x then f x q else q) = (if JS.truthy y then f y q' else q').
Proof. by intros [-> | [-> ->]] ->. Qed.

Lemma same_or_empty_numeric (a b : gmap string string) (field : string)
  (q q' : Filter) :
  same_or_empty (a !! field) (b !! field) -> q = q' ->
  A.numeric_filter a q field = A.numeric_filter b q' field.
Proof.
  unfold A.numeric_filter. intros [-> | [-> ->]] ->; [done|].
  reflexivity.
Qed.

Lemma same_or_empty_operator (v v' op op' : option string) (dflt key : string)
  (q q' : Filter) :
  same_or_empty v v' -> same_or_empty op op' -> q = q' ->
  B2.operator_filter v op dflt key q = B2.operator_filter v' op' dflt key q'.
Proof.
  unfold B2.operator_filter. intros [-> | [-> ->]] Hop ->; [|done].
  by rewrite (same_or_empty_or_string op op' dflt Hop).
Qed.

(** The plan is the same for two requests whose parameters read the
    same, taking the empty string for a parameter that is not given. *)
Lemma plan_same_or_empty (e : Endpoint) (a b : gmap string string) :
  (forall k : string, same_or_empty (a !! k) (b !! k)) ->
  plan_of e a = plan_of e b.
Proof.
  intros H.
  assert (Hpage := same_or_empty_parseInt _ _ (H "page")).
  assert (Hlimit := same_or_empty_parseInt _ _ (H "limit")).
  assert (HsortBy := same_or_empty_or_string _ _ "rating" (H "sortBy")).
  assert (Hasc := same_or_empty_asc _ _ (H "sortOrder")).
  destruct e; simpl.
  - unfold A.getRecipes_plan. rewrite Hpage, Hlimit, HsortBy, Hasc.
    f_equal. cbn [fold_left].
    repeat (apply same_or_empty_numeric; [apply H|]).
    unfold A.threshold_filters.
    apply (same_or_empty_insert_if _ _ _
             (fun v => Field (Lte (JS.of_int (JS.parseInt (JS.ToString v))))));
      [apply H|].
    apply (same_or_empty_insert_if _ _ _
             (fun v => Field (Gte (JS.parseFloat (JS.ToString v))))); [apply H|].
    apply (same_or_empty_insert_if _ _ _
             (fun v => Field (Regex (JS.ToString v) "i"))); [apply H|].
    by apply (same_or_empty_insert_if _ _ _
                (fun v => Or [("title", Regex (JS.ToString v) "i");
                              ("cuisine", Regex (JS.ToString v) "i");
                              ("description", Regex (JS.ToString v) "i")])).
  - unfold B1.searchRecipes_plan. rewrite Hpage, Hlimit, HsortBy, Hasc.
    f_equal.
    apply (same_or_empty_guarded _ _
             (fun v => insert_if
                (negb (JS.isNaN (JS.of_int (JS.parseInt (JS.ToString v))))
                 && JS.gtb (JS.of_int (JS.parseInt (JS.ToString v))) (JS.Finite 0))
                "cook_time"
                (Field (Lte (JS.of_int (JS.parseInt (JS.ToString v)))))));
      [apply H|].
    apply (same_or_empty_guarded _ _
             (fun v => insert_if
                (negb (JS.isNaN (JS.of_int (JS.parseInt (JS.ToString v))))
                 && JS.gtb (JS.of_int (JS.parseInt (JS.ToString v))) (JS.Finite 0))
                "prep_time"
                (Field (Lte (JS.of_int (JS.parseInt (JS.ToString v)))))));
      [apply H|].
    apply (same_or_empty_guarded _ _
             (fun v => insert_if
                (negb (JS.isNaN (JS.parseFloat (JS.ToString v)))
                 && JS.geb (JS.parseFloat (JS.ToString v)) (JS.Finite 1)
                 && JS.leb (JS.parseFloat (JS.ToString v)) (JS.Finite 5))
                "rating" (Field (Gte (JS.parseFloat (JS.ToString v))))));
      [apply H|].
    apply (same_or_empty_insert_if _ _ _
             (fun v => Field (Regex (JS.ToString v) "i"))); [apply H|].
    by apply (same_or_empty_insert_if _ _ _
                (fun v => Or [("title", Regex (JS.ToString v) "i");
                              ("description", Regex (JS.ToString v) "i")])).
  - unfold B2.searchRecipes_plan. rewrite Hpage, Hlimit, HsortBy, Hasc.
    f_equal.
    repeat (apply same_or_empty_operator; [apply H | apply H |]).
    apply (same_or_empty_insert_if _ _ _
             (fun v => Field (Regex (JS.ToString v) "i"))); [apply H|].
    by apply (same_or_empty_insert_if _ _ _
                (fun v => Field (Regex (JS.ToString v) "i"))).
Qed.

Lemma insert_if_skip (b : bool) (K key : string) (e : Entry) (q : Filter) :
  (key = K -> b = false) -> insert_if b K e q !! key = q !! key.
Proof.
  intros Hb. destruct (decide (key = K)) as [->|Hne].
  - by rewrite (Hb eq_refl).
  - apply insert_if_other. congruence.
Qed.

Lemma guarded_skip (x : option string) (b : bool) (K key : string) (e : Entry)
  (q : Filter) :
  (key = K -> JS.truthy x = false) ->
  (if JS.truthy x then insert_if b K e q else q) !! key = q !! key.
Proof.
  intros Hb. destruct (JS.truthy x) eqn:Hx; [|done].
  apply insert_if_other. intros <-. by specialize (Hb eq_refl).
Qed.

Lemma numeric_filter_skip (m : gmap string string) (q : Filter) (f key : string) :
  (key = f -> JS.truthy (m !! f) = false) ->
  A.numeric_filter m q f !! key = q !! key.
Proof.
  intros Hb. destruct (decide (key = f)) as [->|Hne].
  - specialize (Hb eq_refl). unfold A.numeric_filter.
    by destruct (m !! f) as [[|c v]|].
  - apply numeric_filter_other. congruence.
Qed.

Lemma operator_filter_skip (value op : option string) (dflt K key : string)
  (q : Filter) :
  (key = K -> JS.truthy value = false) ->
  B2.operator_filter value op dflt K q !! key = q !! key.
Proof.
  intros Hb. destruct (decide (key = K)) as [->|Hne].
  - unfold B2.operator_filter. by rewrite (Hb eq_refl).
  - apply operator_filter_other. congruence.
Qed.

(** A key of the filter holds nothing when every parameter that guards
    an assignment to it is empty or not given. *)
Lemma no_parameter_no_filter (e : Endpoint) (m : gmap string string) (key : string) :
  (forall k : string, In (k, key) (filter_parameters e) ->
     JS.truthy (m !! k) = false) ->
  query (plan_of e m) !! key = None.
Proof.
  intros H.
  assert (Hk : forall k K : string,
             In (k, K) (filter_parameters e) -> key = K ->
             JS.truthy (m !! k) = false).
  { intros k K Hin ->. by apply H. }
  destruct e; simpl in Hk |- *.
  - rewrite !numeric_filter_skip.
    + unfold A.threshold_filters. rewrite !insert_if_skip.
      * apply lookup_empty.
      * apply Hk. in_list.
      * apply Hk. in_list.
      * apply Hk. in_list.
      * apply Hk. in_list.
    + apply Hk. in_list.
    + apply Hk. in_list.
    + apply Hk. in_list.
    + intros ->. apply H. in_list.
  - rewrite !guarded_skip.
    + rewrite !insert_if_skip.
      * apply lookup_empty.
      * apply Hk. in_list.
      * apply Hk. in_list.
    + apply Hk. in_list.
    + apply Hk. in_list.
    + apply Hk. in_list.
  - rewrite !operator_filter_skip.
    + rewrite !insert_if_skip.
      * apply lookup_empty.
      * apply Hk. in_list.
      * apply Hk. in_list.
    + apply Hk. in_list.
    + apply Hk. in_list.
    + apply Hk. in_list.
Qed.

Lemma threshold_filters_total_time (m : gmap string string) :
  A.threshold_filters m !! "total_time"
  = if JS.truthy (m !! "maxTotalTime")
    then Some (Field (Lte (JS.of_int (JS.parseInt (JS.ToString (m !! "maxTotalTime"))))))
    else None.
Proof.
  unfold A.threshold_filters. rewrite insert_if_same.
  rewrite !insert_if_other by done. by rewrite lookup_empty.
Qed.

Lemma list_total_time (m : gmap string string) :
  query (plan_of ListRecipes m) !! "total_time"
  = match m !! "total_time" with
    | Some v =>
        match A.handleNumberFilter v with
        | Some n => Some (Field (Eq n))
        | None => A.threshold_filters m !! "total_time"
        end
    | None => A.threshold_filters m !! "total_time"
    end.
Proof.
  simpl. rewrite numeric_filter_other by done.
  unfold A.numeric_filter at 1.
  destruct (m !! "total_time") as [v|].
  - destruct (A.handleNumberFilter v).
    + apply lookup_insert_eq.
    + by rewrite !numeric_filter_other.
  - by rewrite !numeric_filter_other.
Qed.

(** C10, the request that shows the difference.  In the list handler
    [total_time=] together with [maxTotalTime=30] gives the plan of the
    request without [total_time], and that plan does filter on the field
    [total_time]: the answer leaves out the recipes above 30 minutes. *)
Lemma empty_total_time_keeps_max_filter :
  let params := Sample.params [("total_time", ""); ("maxTotalTime", "30")] in
  params !! "total_time" = Some ""
  /\ plan_of ListRecipes params = plan_of ListRecipes (delete "total_time" params)
  /\ query (plan_of ListRecipes params) !! "total_time"
     = Some (Field (Lte (JS.Finite 30)))
  /\ query (plan_of ListRecipes params) !! "total_time" <> None
  /\ map title (res_data (Sample.body_of
                            (handle (H := Sample.store) ListRecipes params)))
     = ["Salad"; "Toast"]
  /\ map title (res_data (Sample.body_of
                            (handle (H := Sample.store) ListRecipes ∅)))
     = ["Pie"; "Salad"; "Stew"; "Toast"].
Proof.
  intros params. split; [reflexivity|]. split.
  - apply plan_same_or_empty. intros k.
    destruct (decide (k = "total_time")) as [->|Hne]; [by right|left].
    by rewrite lookup_delete_ne.
  - split; [reflexivity|]. split; [discriminate|]. by split.
Qed.

(** C10. In the three handlers, a request in which a parameter is the
    empty string gives the same plan (filter, page, limit, offset and
    sort) as the request without that parameter.  A key of the filter
    then holds nothing when no other parameter that is given writes it:
    so the key an empty [q], [title], [cuisine], [rating], [minRating],
    [maxPrepTime], [maxCookTime], [calories], [prep_time] or [cook_time]
    would write holds nothing, and so does [total_time] in the second
    search handler.  In the list handler the key [total_time] is written
    by [maxTotalTime] and by [total_time]: with one of them empty it
    holds what the other writes. *)
Theorem empty_string_is_absent
  (e : Endpoint) (params : gmap string string) (k : string) :
  let given := <[k := ""]> params in
  plan_of e given = plan_of e (delete k params)
  /\ (forall key : string,
        (forall k' : string, In (k', key) (filter_parameters e) -> k' <> k ->
           JS.truthy (params !! k') = false) ->
        query (plan_of e given) !! key = None)
  /\ (forall key : string, In (k, key) (filter_parameters e) ->
        (e = ListRecipes -> key <> "total_time") ->
        query (plan_of e given) !! key = None)
  /\ (k = "total_time" ->
      query (plan_of ListRecipes given) !! "total_time"
      = if JS.truthy (params !! "maxTotalTime")
        then Some (Field (Lte (JS.of_int
               (JS.parseInt (JS.ToString (params !! "maxTotalTime"))))))
        else None)
  /\ (k = "maxTotalTime" ->
      query (plan_of ListRecipes given) !! "total_time"
      = match params !! "total_time" with
        | Some v =>
            match A.handleNumberFilter v with
            | Some n => Some (Field (Eq n))
            | None => None
            end
        | None => None
        end).
Proof.
  intros given.
  assert (Habsent : forall key : string,
             (forall k' : string, In (k', key) (filter_parameters e) -> k' <> k ->
                JS.truthy (params !! k') = false) ->
             query (plan_of e given) !! key = None).
  { intros key Hothers. apply no_parameter_no_filter. intros k' Hin.
    unfold given. destruct (decide (k' = k)) as [->|Hne].
    - by rewrite lookup_insert_eq.
    - rewrite lookup_insert_ne by done. by apply Hothers. }
  split; [|split; [exact Habsent|split; [|split]]].
  - apply plan_same_or_empty. intros k0. unfold given.
    destruct (decide (k = k0)) as [->|Hne].
    + right. by rewrite lookup_insert_eq, lookup_delete_eq.
    + left. by rewrite lookup_insert_ne, lookup_delete_ne.
  - intros key Hin Hlist. apply Habsent. intros k' Hin' Hne.
    destruct e; simpl in Hin, Hin';
      repeat (destruct Hin as [Heq|Hin]; [simplify_eq|]);
      try (by destruct Hin);
      repeat (destruct Hin' as [Heq|Hin'];
              [simplify_eq; first [done | exfalso; by apply Hlist]|]);
      by destruct Hin'.
  - intros ->. rewrite list_total_time. unfold given.
    rewrite lookup_insert_eq. change (A.handleNumberFilter "") with (@None JS.number).
    rewrite threshold_filters_total_time. by rewrite lookup_insert_ne.
  - intros ->. rewrite list_total_time, threshold_filters_total_time. unfold given.
    rewrite lookup_insert_eq, lookup_insert_ne by done.
    change (JS.truthy (Some "")) with false. cbv iota. reflexivity.
Qed.

Lemma empty_string_is_absent_witness :
  let params := Sample.params [("rating", "4"); ("ratingOp", "lte");
                               ("title", "Pie")] in
  (In ("rating", "rating") (filter_parameters SearchV2)
   /\ (SearchV2 = ListRecipes -> "rating" <> "total_time"))
  /\ query (plan_of SearchV2 params) !! "rating" = Some (Field (Lte (JS.Finite 4)))
  /\ query (plan_of SearchV2 (<["rating" := ""]> params)) !! "rating" = None
  /\ plan_of SearchV2 (<["rating" := ""]> params)
     = plan_of SearchV2 (delete "rating" params).
Proof.
  intros params.
  assert (Hin : In ("rating", "rating") (filter_parameters SearchV2))
    by (simpl; in_list).
  assert (Hl : SearchV2 = ListRecipes -> "rating" <> "total_time") by discriminate.
  destruct (empty_string_is_absent SearchV2 params "rating")
    as (Hplan & _ & Hkey & _).
  split; [by split|]. split; [reflexivity|]. split; [|exact Hplan].
  exact (Hkey "rating" Hin Hl).
Defined.

(** * Further properties of the code *)

(** ** [_parseNutrientFilter] *)

Lemma operator_run_all (o r : string) :
  Model.all_operator o = true -> Model.starts_with_operator r = false ->
  Model.operator_run (o ++ r) = (o, r).
Proof.
  intros Ho Hr. induction o as [|c o IH]; simpl.
  - destruct r as [|c r]; [reflexivity|]. simpl in Hr |- *. by rewrite Hr.
  - simpl in Ho. apply andb_true_iff in Ho as [Hc Ho].
    rewrite Hc, (IH Ho). reflexivity.
Qed.

(** X1. Whatever the filter string, its operator part and the text
    given to [parseFloat] are the string cut in two: the first is a run
    of [<], [>], [=], the second does not begin with one of them. *)
Theorem nutrient_filter_cut (s : string) :
  fst (Model.operator_run s) ++ snd (Model.operator_run s) = s
  /\ Model.all_operator (fst (Model.operator_run s)) = true
  /\ Model.starts_with_operator (snd (Model.operator_run s)) = false.
Proof.
  induction s as [|c s (IH1 & IH2 & IH3)]; [done|].
  cbn [Model.operator_run].
  destruct (Model.is_operator_char c) eqn:Hc; cbn [fst snd].
  - split; [|split; [|exact IH3]].
    + change (String c (fst (Model.operator_run s) ++ snd (Model.operator_run s))
              = String c s).
      by rewrite IH1.
    + cbn [Model.all_operator]. by rewrite Hc, IH2.
  - split; [reflexivity|]. split; [reflexivity|].
    cbn [Model.starts_with_operator]. exact Hc.
Qed.

(** X2. A filter string made of an operator run [o] and a text [r] that
    does not begin with an operator character is read as [$gt], [$gte],
    [$lt], [$lte] of [parseFloat r] when [o] is [>], [>=], [<], [<=],
    and as the bare number for every other run: none, [=], and also
    [==], [=>], [=<] or [<>]. *)
Theorem nutrient_filter_built (o r : string) :
  Model.all_operator o = true ->
  Model.starts_with_operator r = false ->
  let n := JS.parseFloat r in
  (o = ">" -> Model.parseNutrientFilter (o ++ r) = Model.NGt n)
  /\ (o = ">=" -> Model.parseNutrientFilter (o ++ r) = Model.NGte n)
  /\ (o = "<" -> Model.parseNutrientFilter (o ++ r) = Model.NLt n)
  /\ (o = "<=" -> Model.parseNutrientFilter (o ++ r) = Model.NLte n)
  /\ (o <> ">" -> o <> ">=" -> o <> "<" -> o <> "<=" ->
      Model.parseNutrientFilter (o ++ r) = Model.NExact n).
Proof.
  intros Ho Hr n. unfold Model.parseNutrientFilter.
  rewrite (operator_run_all o r Ho Hr). cbn [fst snd]. fold n.
  repeat split.
  - by intros ->.
  - by intros ->.
  - by intros ->.
  - by intros ->.
  - intros H1 H2 H3 H4. destruct o as [|c o]; [reflexivity|].
    destruct (String.eqb_spec (String c o) ">"); [done|].
    destruct (String.eqb_spec (String c o) ">="); [done|].
    destruct (String.eqb_spec (String c o) "<"); [done|].
    by destruct (String.eqb_spec (String c o) "<=").
Qed.

Lemma nutrient_filter_built_witness :
  (Model.all_operator "=>" = true /\ Model.starts_with_operator " 250 kcal" = false)
  /\ Model.parseNutrientFilter "=> 250 kcal" = Model.NExact (JS.Finite 250)
  /\ Model.parseNutrientFilter ">=" = Model.NGte JS.NaN.
Proof.
  split; [by split|]. split.
  - destruct (nutrient_filter_built "=>" " 250 kcal" eq_refl eq_refl)
      as (_ & _ & _ & _ & H).
    by apply H.
  - destruct (nutrient_filter_built ">=" "" eq_refl eq_refl)
      as (_ & H & _).
    by apply H.
Defined.

(** ** The [pre('save')] hook *)

Lemma pre_save_field_cases (v : Model.FieldVal) :
  (v = Model.NumVal JS.NaN /\ Model.pre_save_field v = Model.NullVal)
  \/ (v <> Model.NumVal JS.NaN /\ Model.pre_save_field v = v).
Proof.
  destruct v as [| |[|b|q]]; [right|right|left|right|right]; by split.
Qed.

(** X3. After the hook none of the four numeric fields holds [NaN]; a
    document without [NaN] in them is left as it is, [undefined] and
    [null] fields included; and running the hook again changes
    nothing. *)
Theorem pre_save_clears_NaN (doc : Model.Numbers) :
  let saved := Model.pre_save doc in
  (Model.n_rating saved <> Model.NumVal JS.NaN
   /\ Model.n_prep_time saved <> Model.NumVal JS.NaN
   /\ Model.n_cook_time saved <> Model.NumVal JS.NaN
   /\ Model.n_total_time saved <> Model.NumVal JS.NaN)
  /\ (Model.n_rating doc <> Model.NumVal JS.NaN ->
      Model.n_prep_time doc <> Model.NumVal JS.NaN ->
      Model.n_cook_time doc <> Model.NumVal JS.NaN ->
      Model.n_total_time doc <> Model.NumVal JS.NaN ->
      saved = doc)
  /\ Model.pre_save saved = saved.
Proof.
  destruct doc as [r p c t]. simpl.
  destruct (pre_save_field_cases r) as [[-> Er] | [Hr Er]];
    destruct (pre_save_field_cases p) as [[-> Ep] | [Hp Ep]];
    destruct (pre_save_field_cases c) as [[-> Ec] | [Hc Ec]];
    destruct (pre_save_field_cases t) as [[-> Et] | [Ht Et]];
    unfold Model.pre_save; cbn [Model.n_rating Model.n_prep_time
                                Model.n_cook_time Model.n_total_time];
    rewrite ?Er, ?Ep, ?Ec, ?Et;
    change (Model.pre_save_field Model.NullVal) with Model.NullVal;
    rewrite ?Er, ?Ep, ?Ec, ?Et;
    (split; [by repeat split|]); (split; [|reflexivity]);
    intros; by try reflexivity.
Qed.

Lemma pre_save_clears_NaN_witness :
  let doc := {| Model.n_rating := Model.NumVal (JS.Finite (9 # 2));
                Model.n_prep_time := Model.Undefined;
                Model.n_cook_time := Model.NullVal;
                Model.n_total_time := Model.NumVal (JS.Infinity false) |} in
  (Model.n_rating doc <> Model.NumVal JS.NaN
   /\ Model.n_prep_time doc <> Model.NumVal JS.NaN
   /\ Model.n_cook_time doc <> Model.NumVal JS.NaN
   /\ Model.n_total_time doc <> Model.NumVal JS.NaN)
  /\ Model.pre_save doc = doc.
Proof.
  intros doc.
  assert (H : Model.n_rating doc <> Model.NumVal JS.NaN
              /\ Model.n_prep_time doc <> Model.NumVal JS.NaN
              /\ Model.n_cook_time doc <> Model.NumVal JS.NaN
              /\ Model.n_total_time doc <> Model.NumVal JS.NaN)
    by (by repeat split).
  split; [exact H|].
  destruct H as (H1 & H2 & H3 & H4).
  destruct (pre_save_clears_NaN doc) as (_ & Hsame & _).
  exact (Hsame H1 H2 H3 H4).
Defined.

(** ** The records [seed.js] builds *)

Lemma or_string_not_empty (v : option string) (d : string) :
  d <> "" -> JS.or_string v d <> "".
Proof.
  intros Hd. unfold JS.or_string.
  destruct v as [[|c s]|]; simpl; done.
Qed.

Lemma format_kept (entry : option Seed.RawRecipe) :
  option_map Seed.f_title (Seed.format entry) = Seed.kept_title entry.
Proof.
  destruct entry as [recipe|]; [|reflexivity]. simpl.
  by destruct (Seed.title recipe) as [[|c t]|].
Qed.

Lemma or_string_cases (v : option string) (d : string) :
  (v = None \/ v = Some "" -> JS.or_string v d = d)
  /\ (forall c : string, v = Some c -> c <> "" -> JS.or_string v d = c).
Proof.
  split.
  - by intros [-> | ->].
  - intros c -> Hc. by destruct c.
Qed.

(** X4. Every record the loop builds has a non-empty title, cuisine,
    continent and country.  It is built from an entry of the dataset
    with that title: its cuisine is the entry's, or [Uncategorized] when
    the entry has none or an empty one; its continent and its country
    are the entry's [Continent] and [Country_State], or [Unknown] when
    the entry has none or an empty one. *)
Theorem formatted_never_blank
  (recipeData : list (string * option Seed.RawRecipe))
  (r : Seed.FormattedRecipe) :
  In r (Seed.formattedRecipes recipeData) ->
  (Seed.f_title r <> "" /\ Seed.f_cuisine r <> ""
   /\ Seed.f_continent r <> "" /\ Seed.f_country_state r <> "")
  /\ exists (key : string) (recipe : Seed.RawRecipe),
       In (key, Some recipe) recipeData
       /\ Seed.format (Some recipe) = Some r
       /\ Seed.title recipe = Some (Seed.f_title r)
       /\ (Seed.cuisine recipe = None \/ Seed.cuisine recipe = Some "" ->
           Seed.f_cuisine r = "Uncategorized")
       /\ (forall c : string, Seed.cuisine recipe = Some c -> c <> "" ->
             Seed.f_cuisine r = c)
       /\ (Seed.Continent recipe = None \/ Seed.Continent recipe = Some "" ->
           Seed.f_continent r = "Unknown")
       /\ (forall c : string, Seed.Continent recipe = Some c -> c <> "" ->
             Seed.f_continent r = c)
       /\ (Seed.Country_State recipe = None \/ Seed.Country_State recipe = Some "" ->
           Seed.f_country_state r = "Unknown")
       /\ (forall c : string, Seed.Country_State recipe = Some c -> c <> "" ->
             Seed.f_country_state r = c).
Proof.
  intros Hin. apply list_elem_of_In in Hin.
  apply list_elem_of_omap in Hin as ([key entry] & Hdata & Hf). simpl in Hf.
  destruct entry as [recipe|]; [|discriminate].
  pose proof Hf as Hformat. simpl in Hf.
  destruct (Seed.title recipe) as [[|c t]|] eqn:Ht; try discriminate.
  simpl in Hf. injection Hf as <-. cbn [Seed.f_title Seed.f_cuisine
    Seed.f_continent Seed.f_country_state]. split.
  - repeat split; try done; by apply or_string_not_empty.
  - exists key, recipe. split; [by apply list_elem_of_In|].
    split; [exact Hformat|]. split; [exact Ht|].
    repeat split; apply or_string_cases.
Qed.

Lemma formatted_never_blank_witness :
  let entry :=
    {| Seed.title := Some "Pie"; Seed.cuisine := Some "";
       Seed.rating := None; Seed.prep_time := None; Seed.cook_time := None;
       Seed.total_time := None; Seed.description := None;
       Seed.ingredients := None; Seed.instructions := None;
       Seed.nutrients := None; Seed.serves := None; Seed.URL := None;
       Seed.Continent := None; Seed.Country_State := Some "Ohio" |} in
  let untitled :=
    {| Seed.title := Some ""; Seed.cuisine := Some "Greek";
       Seed.rating := None; Seed.prep_time := None; Seed.cook_time := None;
       Seed.total_time := None; Seed.description := None;
       Seed.ingredients := None; Seed.instructions := None;
       Seed.nutrients := None; Seed.serves := None; Seed.URL := None;
       Seed.Continent := None; Seed.Country_State := None |} in
  let data := [("0", Some entry); ("1", None); ("2", Some untitled)] in
  exists r : Seed.FormattedRecipe,
    In r (Seed.formattedRecipes data)
    /\ Seed.formattedRecipes data = [r]
    /\ Seed.f_cuisine r = "Uncategorized" /\ Seed.f_continent r = "Unknown"
    /\ Seed.f_country_state r = "Ohio" /\ Seed.f_title r <> "".
Proof.
  intros entry untitled data. eexists.
  assert (Hin : In _ (Seed.formattedRecipes data)) by (left; reflexivity).
  split; [exact Hin|]. repeat (split; [reflexivity|]).
  exact (proj1 (proj1 (formatted_never_blank data _ Hin))).
Defined.

(** X5. The records are in the order of the dataset, one for each entry
    that is not [null] and has a non-empty title, with that title
    unchanged; so there are at most as many records as entries, and the
    records of two datasets put end to end are the records of the first
    followed by those of the second. *)
Theorem formatted_titles_in_order
  (recipeData more : list (string * option Seed.RawRecipe)) :
  map Seed.f_title (Seed.formattedRecipes recipeData)
    = omap (fun kv => Seed.kept_title (snd kv)) recipeData
  /\ (length (Seed.formattedRecipes recipeData) <= length recipeData)%nat
  /\ Seed.formattedRecipes (recipeData ++ more)%list
     = (Seed.formattedRecipes recipeData ++ Seed.formattedRecipes more)%list.
Proof.
  unfold Seed.formattedRecipes. split; [|split].
  - induction recipeData as [|[key entry] data IH]; [reflexivity|].
    simpl. rewrite <- (format_kept entry).
    destruct (Seed.format entry); simpl; [f_equal|]; exact IH.
  - induction recipeData as [|[key entry] data IH]; [done|].
    set (F := fun kv : string * option Seed.RawRecipe => Seed.format (snd kv)) in *.
    change (length (match Seed.format entry with
                    | Some y => y :: omap F data
                    | None => omap F data
                    end) <= S (length data))%nat.
    destruct (Seed.format entry); cbn [length]; lia.
  - apply omap_app.
Qed.

(** ** The insertion loop *)

Lemma length_slice {T : Type} (i : nat) (l : list T) :
  length (SeedRun.slice i (i + SeedRun.batchSize) l)
  = Nat.min SeedRun.batchSize (length l - i).
Proof.
  unfold SeedRun.slice. rewrite length_take, length_drop.
  f_equal. lia.
Qed.

Lemma insert_loop_concat {T : Type} (fuel i : nat) (l : list T) :
  (length l - i <= fuel)%nat ->
  concat (map fst (SeedRun.insert_loop fuel i l)) = drop i l.
Proof.
  revert i. induction fuel as [|fuel IH]; intros i Hf; simpl.
  - symmetry. apply drop_ge. lia.
  - destruct (Nat.ltb_spec i (length l)) as [Hi|Hi]; simpl.
    + rewrite IH by (unfold SeedRun.batchSize; lia).
      unfold SeedRun.slice.
      replace (i + SeedRun.batchSize - i)%nat with SeedRun.batchSize by lia.
      rewrite <- drop_drop. apply take_drop.
    + symmetry. by apply drop_ge.
Qed.

Lemma insert_loop_sizes {T : Type} (fuel i : nat) (l : list T) :
  Forall (fun call => (0 < length (fst call) <= SeedRun.batchSize)%nat)
    (SeedRun.insert_loop fuel i l).
Proof.
  revert i. induction fuel as [|fuel IH]; intros i; simpl; [constructor|].
  destruct (Nat.ltb_spec i (length l)) as [Hi|Hi]; [|constructor].
  constructor; [|apply IH]. simpl. rewrite length_slice.
  unfold SeedRun.batchSize. lia.
Qed.

Lemma insert_loop_progress {T : Type} (fuel i k : nat) (l : list T)
  (call : list T * nat) :
  SeedRun.insert_loop fuel i l !! k = Some call ->
  snd call
  = (i + length (concat (map fst (take (S k) (SeedRun.insert_loop fuel i l)))))%nat.
Proof.
  revert i k. induction fuel as [|fuel IH]; intros i k; simpl; [done|].
  destruct (Nat.ltb_spec i (length l)) as [Hi|Hi]; [|done].
  destruct k as [|k]; simpl.
  - intros [= <-]. simpl. rewrite app_nil_r, length_slice. lia.
  - intros Hk. rewrite (IH _ _ Hk).
    assert (Hlt : (i + SeedRun.batchSize < length l)%nat).
    { destruct fuel as [|fuel']; simpl in Hk; [done|].
      by destruct (Nat.ltb_spec (i + SeedRun.batchSize) (length l)). }
    rewrite length_app, length_slice. unfold SeedRun.batchSize in *. lia.
Qed.

Lemma batches_cover_concat_aux {T : Type} (formatted : list T) :
  concat (map fst (SeedRun.batches formatted)) = formatted.
Proof.
  unfold SeedRun.batches. rewrite insert_loop_concat by lia. reflexivity.
Qed.

(** X6. The batches given to [insertMany], put end to end, are the
    formatted records, in order and without loss or repetition; every
    batch has between 1 and 50 records; and the number logged after a
    batch is the number of records given to the store so far. *)
Theorem batches_cover {T : Type} (formatted : list T) :
  concat (map fst (SeedRun.batches formatted)) = formatted
  /\ Forall (fun call => (0 < length (fst call) <= 50)%nat)
       (SeedRun.batches formatted)
  /\ forall (k : nat) (call : list T * nat),
       SeedRun.batches formatted !! k = Some call ->
       snd call
       = length (concat (map fst (take (S k) (SeedRun.batches formatted)))).
Proof.
  split; [apply batches_cover_concat_aux|]. unfold SeedRun.batches. split.
  - apply insert_loop_sizes.
  - intros k call Hk. by rewrite (insert_loop_progress _ _ _ _ _ Hk).
Qed.

Lemma batches_cover_witness :
  let formatted := seq 0 120 in
  SeedRun.batches formatted !! 2%nat = Some (seq 100 20, 120%nat)
  /\ map snd (SeedRun.batches formatted) = [50; 100; 120]%nat
  /\ length (concat (map fst (take 3 (SeedRun.batches formatted)))) = 120%nat.
Proof.
  intros formatted.
  assert (Hk : SeedRun.batches formatted !! 2%nat = Some (seq 100 20, 120%nat))
    by reflexivity.
  split; [exact Hk|]. split; [reflexivity|].
  destruct (batches_cover formatted) as (_ & _ & Hlog).
  symmetry. exact (Hlog _ _ Hk).
Defined.

Lemma insert_all_result (accepts : list Seed.FormattedRecipe -> bool)
  (calls : list (list Seed.FormattedRecipe * nat))
  (inserted : list Seed.FormattedRecipe) :
  SeedRun.insert_all accepts calls = Some inserted ->
  inserted = concat (map fst calls)
  /\ Forall (fun call => accepts (fst call) = true) calls.
Proof.
  revert inserted. induction calls as [|[batch n] calls IH]; simpl.
  - intros inserted [= <-]. by split.
  - intros inserted. destruct (accepts batch) eqn:Ha; [|done].
    destruct (SeedRun.insert_all accepts calls) as [rest|]; [|done].
    simpl. intros [= <-]. destruct (IH rest eq_refl) as [-> Hall].
    split; [reflexivity|]. by constructor.
Qed.

Lemma insert_all_accepted (accepts : list Seed.FormattedRecipe -> bool)
  (calls : list (list Seed.FormattedRecipe * nat)) :
  Forall (fun call => accepts (fst call) = true) calls ->
  SeedRun.insert_all accepts calls = Some (concat (map fst calls)).
Proof.
  induction 1 as [|[batch n] calls Ha _ IH]; simpl; [reflexivity|].
  simpl in Ha. by rewrite Ha, IH.
Qed.

(** X7. A seeding that ends with exit code 0 has given the emptied
    collection exactly the formatted records of the dataset, in order,
    and [insertMany] took every batch; and when the store is reached and
    takes every batch, the seeding does end with exit code 0. *)
Theorem seed_replaces_collection (connects : bool)
  (accepts : list Seed.FormattedRecipe -> bool)
  (recipeData : list (string * option Seed.RawRecipe)) :
  (forall inserted : list Seed.FormattedRecipe,
     SeedRun.seedDatabase connects accepts recipeData = SeedRun.Exit0 inserted ->
     connects = true
     /\ inserted = Seed.formattedRecipes recipeData
     /\ Forall (fun call => accepts (fst call) = true)
          (SeedRun.batches (Seed.formattedRecipes recipeData)))
  /\ (connects = true ->
      (forall batch, accepts batch = true) ->
      SeedRun.seedDatabase connects accepts recipeData
      = SeedRun.Exit0 (Seed.formattedRecipes recipeData)).
Proof.
  unfold SeedRun.seedDatabase. split.
  - intros inserted. destruct connects; [|done].
    destruct (SeedRun.insert_all _ _) as [ins|] eqn:Hins; [|done].
    intros [= <-]. apply insert_all_result in Hins as [-> Hall].
    split; [reflexivity|]. split; [|exact Hall].
    apply (batches_cover_concat_aux (Seed.formattedRecipes recipeData)).
  - intros -> Hall.
    rewrite insert_all_accepted by (apply Forall_forall; intros; apply Hall).
    f_equal. apply (batches_cover_concat_aux (Seed.formattedRecipes recipeData)).
Qed.

Lemma seed_replaces_collection_witness :
  let entry (t : string) :=
    {| Seed.title := Some t; Seed.cuisine := None;
       Seed.rating := None; Seed.prep_time := None; Seed.cook_time := None;
       Seed.total_time := None; Seed.description := None;
       Seed.ingredients := None; Seed.instructions := None;
       Seed.nutrients := None; Seed.serves := None; Seed.URL := None;
       Seed.Continent := None; Seed.Country_State := None |} in
  let data := [("0", Some (entry "Pie")); ("1", None); ("2", Some (entry "Stew"))] in
  let accepts := fun _ : list Seed.FormattedRecipe => true in
  (forall batch, accepts batch = true)
  /\ map Seed.f_title
       (match SeedRun.seedDatabase true accepts data with
        | SeedRun.Exit0 inserted => inserted
        | SeedRun.Exit1 => []
        end) = ["Pie"; "Stew"].
Proof.
  intros entry data accepts.
  assert (Hall : forall batch, accepts batch = true) by reflexivity.
  split; [exact Hall|].
  destruct (seed_replaces_collection true accepts data) as [_ Hok].
  rewrite (Hok eq_refl Hall). reflexivity.
Defined.

(** ** What the handlers read and write *)

(** X8. A handler ignores every parameter that is not one of those it
    reads: giving such a parameter any value, or removing it, changes
    neither the filter nor the sort nor the page window.  The list
    handler and the first search handler do not read [title]; the second
    search handler does not read [q]. *)
Theorem unread_parameters_ignored
  (e : Endpoint) (params : gmap string string) (k v : string) :
  ~ In k (params_read e) ->
  plan_of e (<[k := v]> params) = plan_of e params
  /\ plan_of e (delete k params) = plan_of e params.
Proof.
  intros Hk. destruct e; simpl in Hk; simpl; split.
  - unfold A.getRecipes_plan, A.threshold_filters, A.numeric_filter.
    cbn [fold_left]. by unread Hk.
  - unfold A.getRecipes_plan, A.threshold_filters, A.numeric_filter.
    cbn [fold_left]. by unread Hk.
  - unfold B1.searchRecipes_plan. by unread Hk.
  - unfold B1.searchRecipes_plan. by unread Hk.
  - unfold B2.searchRecipes_plan. by unread Hk.
  - unfold B2.searchRecipes_plan. by unread Hk.
Qed.

Lemma unread_parameters_ignored_witness :
  let params := Sample.params [("cuisine", "Greek")] in
  ~ In "title" (params_read ListRecipes)
  /\ plan_of ListRecipes (<["title" := "Pie"]> params)
     = plan_of ListRecipes params
  /\ res_data (Sample.body_of
                 (handle (H := Sample.store) ListRecipes
                    (<["title" := "Pie"]> params)))
     = [Sample.recipe "Salad" "Greek" 4 15].
Proof.
  intros params.
  assert (Hk : ~ In "title" (params_read ListRecipes)).
  { simpl. intros H. repeat destruct H as [H|H]; try discriminate H. exact H. }
  split; [exact Hk|]. split; [|reflexivity].
  exact (proj1 (unread_parameters_ignored ListRecipes params "title" "Pie" Hk)).
Defined.

Lemma unwritten_key (e : Endpoint) (params : gmap string string) (k : string) :
  ~ In k (keys_written e) -> query (plan_of e params) !! k = None.
Proof.
  intros Hk. destruct e; simpl in Hk; simpl;
    [ unfold A.threshold_filters
    | destruct (JS.truthy (params !! "maxCookTime"));
      destruct (JS.truthy (params !! "maxPrepTime"));
      destruct (JS.truthy (params !! "minRating"))
    | ];
    repeat first
      [ rewrite insert_if_other by (intros <-; apply Hk; simpl; in_list)
      | rewrite numeric_filter_other by (intros <-; apply Hk; simpl; in_list)
      | rewrite operator_filter_other by (intros <-; apply Hk; simpl; in_list) ];
    apply lookup_empty.
Qed.

(** X9. The filter a handler gives to the store has no other keys than
    the ones the handler writes: [$or], [cuisine], [rating],
    [total_time], [prep_time], [cook_time] for the list handler, the
    same without [total_time] for the first search handler, and [title],
    [cuisine], [rating], [nutrients.calories], [total_time] for the
    second. *)
Theorem filter_keys_bounded
  (e : Endpoint) (params : gmap string string) (k : string) (entry : Entry) :
  query (plan_of e params) !! k = Some entry -> In k (keys_written e).
Proof.
  intros Hq. destruct (in_dec string_dec k (keys_written e)) as [Hin|Hout];
    [exact Hin|].
  rewrite (unwritten_key e params k Hout) in Hq. discriminate.
Qed.

Lemma filter_keys_bounded_witness :
  let params := Sample.params [("title", "Pie"); ("calories", "100");
                               ("q", "x"); ("minRating", "3")] in
  query (plan_of SearchV2 params) !! "nutrients.calories"
    = Some (Field (Gte (JS.Finite 100)))
  /\ In "nutrients.calories" (keys_written SearchV2).
Proof.
  intros params.
  assert (Hq : query (plan_of SearchV2 params) !! "nutrients.calories"
               = Some (Field (Gte (JS.Finite 100)))) by reflexivity.
  split; [exact Hq|]. exact (filter_keys_bounded _ _ _ _ Hq).
Defined.

(** ** [NaN] in the filter *)

Lemma NaN_free_insert_if (b : bool) (k : string) (e : Entry) (q : Filter) :
  (b = true -> NaN_free e) ->
  map_Forall (fun _ e' => NaN_free e') q ->
  map_Forall (fun _ e' => NaN_free e') (insert_if b k e q).
Proof.
  intros He Hq. destruct b; simpl; [|exact Hq].
  apply map_Forall_insert_2; auto.
Qed.

Lemma NaN_free_regex_alts (alts : list (string * Cond)) :
  Forall (fun a => exists p o, snd a = Regex p o) alts -> NaN_free (Or alts).
Proof.
  simpl. intros H. eapply Forall_impl; [exact H|].
  intros a (p & o & Ha). by rewrite Ha.
Qed.

Lemma NaN_free_operator_filter (value op : option string) (dflt key : string)
  (q : Filter) :
  map_Forall (fun _ e' => NaN_free e') q ->
  map_Forall (fun _ e' => NaN_free e') (B2.operator_filter value op dflt key q).
Proof.
  intros Hq. unfold B2.operator_filter.
  destruct (JS.truthy value); [|exact Hq].
  destruct (B2.buildOperatorQuery _ _) as [r|] eqn:Hb; [|exact Hq].
  apply map_Forall_insert_2; [|exact Hq].
  unfold B2.buildOperatorQuery in Hb.
  destruct (JS.isNaN (JS.parseFloat (JS.ToString value))) eqn:Hn; [discriminate|].
  repeat match type of Hb with
         | (if ?c then _ else _) = _ => destruct c
         end; injection Hb as <-; exact Hn.
Qed.

Lemma positive_not_NaN (o : option Z) (b : bool) :
  negb (JS.isNaN (JS.of_int o)) && b = true -> JS.isNaN (JS.of_int o) = false.
Proof. destruct o as [z|]; [intros _; apply of_int_not_NaN | done]. Qed.

Lemma rating_guard_not_NaN (r : JS.number) :
  negb (JS.isNaN r) && JS.geb r (JS.Finite 1) && JS.leb r (JS.Finite 5) = true ->
  JS.isNaN r = false.
Proof. by destruct r. Qed.

Lemma search_plans_NaN_free (params : gmap string string) :
  map_Forall (fun _ e => NaN_free e) (query (plan_of SearchV1 params))
  /\ map_Forall (fun _ e => NaN_free e) (query (plan_of SearchV2 params)).
Proof.
  split; simpl.
  - assert (H0 : map_Forall (fun (_ : string) e => NaN_free e) (∅ : Filter))
      by apply map_Forall_empty.
    destruct (JS.truthy (params !! "maxCookTime"));
      destruct (JS.truthy (params !! "maxPrepTime"));
      destruct (JS.truthy (params !! "minRating"));
      repeat first
        [ exact H0
        | apply NaN_free_insert_if;
          [ first [ intros; apply NaN_free_regex_alts; repeat constructor; eauto
                  | intros; exact I
                  | intros Hg; simpl; by apply positive_not_NaN in Hg
                  | intros Hg; simpl; by apply rating_guard_not_NaN in Hg ] | ] ].
  - repeat apply NaN_free_operator_filter.
    repeat (apply NaN_free_insert_if; [intros; exact I|]).
    apply map_Forall_empty.
Qed.

(** X10. The two search handlers never give the store a comparison with
    [NaN]: every [$gte], [$lte] or bare number of their filter is a
    number, and every other entry is a regular expression. *)
Theorem search_filters_NaN_free (params : gmap string string) :
  map_Forall (fun _ e => NaN_free e) (query (plan_of SearchV1 params))
  /\ map_Forall (fun _ e => NaN_free e) (query (plan_of SearchV2 params)).
Proof. apply search_plans_NaN_free. Qed.

Lemma castable_lookup (q : Filter) (k : string) (c : Cond) :
  castable q = true -> q !! k = Some (Field c) -> cond_castable k c = true.
Proof.
  unfold castable. rewrite forallb_forall. intros Hall Hk.
  apply (Hall (k, Field c)). apply list_elem_of_In.
  by apply elem_of_map_to_list.
Qed.

Lemma NaN_free_castable (q : Filter) :
  map_Forall (fun _ e => NaN_free e) q -> castable q = true.
Proof.
  intros Hq. unfold castable. apply forallb_forall. intros [k e] Hin.
  apply list_elem_of_In, elem_of_map_to_list in Hin.
  specialize (Hq k e Hin). destruct e as [c|alts]; simpl in Hq |- *.
  - unfold cond_castable. destruct (operand c) as [n|]; [|reflexivity].
    by rewrite Hq, andb_false_r.
  - apply forallb_forall. intros a Ha. apply list_elem_of_In in Ha.
    rewrite Forall_forall in Hq. unfold cond_castable. by rewrite (Hq a Ha).
Qed.

Lemma handleNumberFilter_None (v : string) :
  A.handleNumberFilter v = None -> JS.parseFloat v = JS.NaN.
Proof.
  unfold A.handleNumberFilter.
  destruct (String.eqb_spec v "null") as [->|_]; [done|].
  destruct (String.eqb_spec v "undefined") as [->|_]; [done|].
  simpl. by destruct (JS.parseFloat v).
Qed.

Lemma threshold_rating (params : gmap string string) :
  A.threshold_filters params !! "rating"
  = if JS.truthy (params !! "rating")
    then Some (Field (Gte (JS.parseFloat (JS.ToString (params !! "rating")))))
    else None.
Proof.
  unfold A.threshold_filters.
  rewrite insert_if_other by discriminate. rewrite insert_if_same.
  destruct (JS.truthy (params !! "rating")); [reflexivity|].
  rewrite !insert_if_other by discriminate. apply lookup_empty.
Qed.

Lemma list_rating_lookup (params : gmap string string) :
  query (A.getRecipes_plan params) !! "rating"
  = match params !! "rating" ≫= A.handleNumberFilter with
    | Some n => Some (Field (Eq n))
    | None => A.threshold_filters params !! "rating"
    end.
Proof.
  simpl. unfold A.numeric_filter at 1.
  destruct (params !! "rating") as [v|]; simpl.
  - destruct (A.handleNumberFilter v); [apply lookup_insert_eq|].
    by rewrite !numeric_filter_other by discriminate.
  - by rewrite !numeric_filter_other by discriminate.
Qed.

(** X11. In the list handler the key [rating] of the filter is in one of
    three states: absent; the bare number [rating] parses to, which is
    not [NaN]; or [{ $gte: NaN }], when [rating] is a non-empty string
    that [parseFloat] does not read.  So the filter never holds
    [{ $gte: n }] for a number [n]: the minimum-rating threshold never
    reaches the store. *)
Theorem list_rating_states (params : gmap string string) :
  let q := query (A.getRecipes_plan params) in
  (q !! "rating" = None
   \/ (exists n, q !! "rating" = Some (Field (Eq n)) /\ JS.isNaN n = false
                 /\ exists v, params !! "rating" = Some v /\ JS.parseFloat v = n)
   \/ (q !! "rating" = Some (Field (Gte JS.NaN))
       /\ exists v, params !! "rating" = Some v /\ v <> ""
                    /\ JS.parseFloat v = JS.NaN))
  /\ forall n, q !! "rating" = Some (Field (Gte n)) -> n = JS.NaN.
Proof.
  intros q. subst q.
  assert (Hstates :
    query (A.getRecipes_plan params) !! "rating" = None
    \/ (exists n, query (A.getRecipes_plan params) !! "rating" = Some (Field (Eq n))
          /\ JS.isNaN n = false
          /\ exists v, params !! "rating" = Some v /\ JS.parseFloat v = n)
    \/ (query (A.getRecipes_plan params) !! "rating" = Some (Field (Gte JS.NaN))
        /\ exists v, params !! "rating" = Some v /\ v <> ""
                     /\ JS.parseFloat v = JS.NaN)).
  { rewrite list_rating_lookup, threshold_rating.
    destruct (params !! "rating") as [v|] eqn:Hv; simpl; [|by left].
    destruct (A.handleNumberFilter v) as [n|] eqn:Hh.
    - right; left. exists n. split; [reflexivity|].
      split; [by apply handleNumberFilter_not_NaN in Hh|].
      exists v. split; [reflexivity|].
      pose proof (handleNumberFilter_not_NaN v n Hh) as Hn.
      unfold A.handleNumberFilter in Hh.
      destruct (_ || _); [discriminate|].
      destruct (JS.isNaN (JS.parseFloat v)); [discriminate|]. by injection Hh.
    - apply handleNumberFilter_None in Hh. rewrite Hh.
      destruct v as [|c v]; simpl; [by left|].
      right; right. split; [reflexivity|]. by exists (String c v). }
  split; [exact Hstates|].
  intros n Hn. destruct Hstates as [H|[(m & H & _)|[H _]]]; congruence.
Qed.

(** X12. With a non-empty [rating] that [parseFloat] does not read (the
    strings [null] and [undefined] among them), the filter of the list
    handler holds [{ $gte: NaN }] under [rating], a number path: the
    model refuses to cast it, and the handler answers 500 whatever the
    collection holds. *)
Theorem unparsable_rating_answers_500 `{Store}
  (params : gmap string string) (v : string) :
  params !! "rating" = Some v -> v <> "" ->
  JS.isNaN (JS.parseFloat v) = true ->
  query (A.getRecipes_plan params) !! "rating" = Some (Field (Gte JS.NaN))
  /\ castable (query (A.getRecipes_plan params)) = false
  /\ A.getRecipes params = Status500.
Proof.
  intros Hv Hne Hn.
  assert (Hq : query (A.getRecipes_plan params) !! "rating"
               = Some (Field (Gte JS.NaN))).
  { rewrite list_rating_lookup, threshold_rating, Hv. simpl.
    assert (Hh : A.handleNumberFilter v = None).
    { unfold A.handleNumberFilter. destruct (_ || _); [reflexivity|].
      by rewrite Hn. }
    rewrite Hh. destruct v as [|c v]; [done|]. simpl.
    destruct (JS.parseFloat (String c v)); done. }
  assert (Hc : castable (query (A.getRecipes_plan params)) = false).
  { destruct (castable _) eqn:Hc; [|reflexivity].
    by pose proof (castable_lookup _ _ _ Hc Hq). }
  split; [exact Hq|]. split; [exact Hc|].
  unfold A.getRecipes. by apply respond_500.
Qed.

Lemma unparsable_rating_answers_500_witness :
  let params := Sample.params [("rating", "high"); ("cuisine", "Greek")] in
  (params !! "rating" = Some "high" /\ "high" <> ""
   /\ JS.isNaN (JS.parseFloat "high") = true)
  /\ A.getRecipes (H := Sample.store) params = Status500
  /\ exists body, A.getRecipes (H := Sample.store) (delete "rating" params)
                  = Status200 body.
Proof.
  intros params. split; [by repeat split|].
  destruct (unparsable_rating_answers_500 (H := Sample.store) params "high"
              eq_refl ltac:(discriminate) eq_refl) as (_ & _ & H500).
  split; [exact H500|]. by eexists.
Defined.

(** ** What a matching document satisfies *)

Section Soundness.
Context `{Store}.

Lemma numeric_entry_sound (q : Filter) (key : string) (doc : Recipe)
  (o : option Q) (c : Cond) :
  field_value key doc = of_number o ->
  matches q doc = true -> q !! key = Some (Field c) ->
  exists x : Q, o = Some x /\ number_holds c x = true.
Proof.
  intros Hf Hm Hq. pose proof (matches_lookup _ _ _ _ Hm Hq) as He.
  simpl in He. unfold cond_holds in He. rewrite Hf in He.
  destruct o as [x|]; simpl in He; [|discriminate]. by exists x.
Qed.

Lemma operator_entry_sound (q : Filter) (key : string) (doc : Recipe)
  (o : option Q) (v op : string) (y : Q) :
  field_value key doc = of_number o ->
  matches q doc = true ->
  q !! key = B2.buildOperatorQuery v op ->
  JS.parseFloat v = JS.Finite y ->
  exists x : Q, o = Some x
    /\ (op = "lte" -> Qle x y) /\ (op = "eq" -> Qeq x y)
    /\ (op <> "lte" -> op <> "eq" -> Qle y x).
Proof.
  intros Hf Hm Hq Hy. unfold B2.buildOperatorQuery in Hq.
  rewrite Hy in Hq. simpl in Hq.
  destruct (String.eqb_spec op "gte") as [->|Hg].
  { destruct (numeric_entry_sound q key doc o _ Hf Hm Hq) as (x & -> & Hx).
    exists x. split; [done|]. simpl in Hx. apply Qle_bool_iff in Hx. by repeat split. }
  destruct (String.eqb_spec op "lte") as [->|Hl].
  { destruct (numeric_entry_sound q key doc o _ Hf Hm Hq) as (x & -> & Hx).
    exists x. split; [done|]. simpl in Hx. apply Qle_bool_iff in Hx. by repeat split. }
  destruct (String.eqb_spec op "eq") as [->|He].
  { destruct (numeric_entry_sound q key doc o _ Hf Hm Hq) as (x & -> & Hx).
    exists x. split; [done|]. simpl in Hx. apply Qeq_bool_iff in Hx. by repeat split. }
  destruct (numeric_entry_sound q key doc o _ Hf Hm Hq) as (x & -> & Hx).
  exists x. split; [done|]. simpl in Hx. apply Qle_bool_iff in Hx. by repeat split.
Qed.

Lemma B2_rating_lookup (params : gmap string string) :
  query (B2.searchRecipes_plan params) !! "rating"
  = if JS.truthy (params !! "rating")
    then B2.buildOperatorQuery (JS.ToString (params !! "rating"))
           (JS.or_string (params !! "ratingOp") "gte")
    else None.
Proof.
  simpl. rewrite !operator_filter_other by discriminate.
  apply operator_filter_same.
  rewrite !insert_if_other by discriminate. apply lookup_empty.
Qed.

Lemma B2_total_time_lookup (params : gmap string string) :
  query (B2.searchRecipes_plan params) !! "total_time"
  = if JS.truthy (params !! "total_time")
    then B2.buildOperatorQuery (JS.ToString (params !! "total_time"))
           (JS.or_string (params !! "timeOp") "lte")
    else None.
Proof.
  simpl. apply operator_filter_same.
  rewrite !operator_filter_other by discriminate.
  rewrite !insert_if_other by discriminate. apply lookup_empty.
Qed.

Lemma finite_nonempty (v : string) (y : Q) :
  JS.parseFloat v = JS.Finite y -> JS.truthy (Some v) = true.
Proof. intros Hy. apply parseFloat_nonempty. by rewrite Hy. Qed.

(** X13. In the second search handler, a document that matches the
    filter has, for a [rating] that parses to the number [y], a rating
    [x] with [x <= y] under the operator [lte], [x = y] under [eq] and
    [y <= x] under every other operator and without one; and the same for
    [total_time] with [timeOp], where a missing operator means [lte]. *)
Theorem operator_filters_sound (params : gmap string string) (doc : Recipe) :
  matches (query (B2.searchRecipes_plan params)) doc = true ->
  (forall (v : string) (y : Q),
     params !! "rating" = Some v -> JS.parseFloat v = JS.Finite y ->
     let op := JS.or_string (params !! "ratingOp") "gte" in
     exists x : Q, rating doc = Some x
       /\ (op = "lte" -> Qle x y) /\ (op = "eq" -> Qeq x y)
       /\ (op <> "lte" -> op <> "eq" -> Qle y x))
  /\ (forall (v : string) (y : Q),
        params !! "total_time" = Some v -> JS.parseFloat v = JS.Finite y ->
        let op := JS.or_string (params !! "timeOp") "lte" in
        exists x : Q, total_time doc = Some x
          /\ (op = "lte" -> Qle x y) /\ (op = "eq" -> Qeq x y)
          /\ (op <> "lte" -> op <> "eq" -> Qle y x)).
Proof.
  intros Hm. split.
  - intros v y Hv Hy op.
    apply (operator_entry_sound _ "rating" doc (rating doc) v op y eq_refl Hm);
      [|exact Hy].
    rewrite B2_rating_lookup, Hv. by rewrite (finite_nonempty v y Hy).
  - intros v y Hv Hy op.
    apply (operator_entry_sound _ "total_time" doc (total_time doc) v op y
             eq_refl Hm); [|exact Hy].
    rewrite B2_total_time_lookup, Hv. by rewrite (finite_nonempty v y Hy).
Qed.

(** X14. In the first search handler, a document that matches the filter
    has a rating of at least [minRating] when that parses into [[1, 5]],
    a preparation time of at most [maxPrepTime] and a cooking time of at
    most [maxCookTime] when those parse to an integer above 0.  The
    bounds are the binary64 numbers the handler read: the integer itself
    when it is a safe integer. *)
Theorem guarded_thresholds_sound (params : gmap string string) (doc : Recipe) :
  matches (query (B1.searchRecipes_plan params)) doc = true ->
  (forall (v : string) (y : Q),
     params !! "minRating" = Some v -> JS.parseFloat v = JS.Finite y ->
     Qle 1 y -> Qle y 5 ->
     exists x : Q, rating doc = Some x /\ Qle y x)
  /\ (forall (v : string) (z : Z),
        params !! "maxPrepTime" = Some v -> JS.parseInt v = Some z -> 0 < z ->
        exists x : Q, prep_time doc = Some x
          /\ JS.leb (JS.Finite x) (JS.of_int (Some z)) = true
          /\ (z <= JS.MAX_SAFE_INTEGER -> Qle x (inject_Z z)))
  /\ (forall (v : string) (z : Z),
        params !! "maxCookTime" = Some v -> JS.parseInt v = Some z -> 0 < z ->
        exists x : Q, cook_time doc = Some x
          /\ JS.leb (JS.Finite x) (JS.of_int (Some z)) = true
          /\ (z <= JS.MAX_SAFE_INTEGER -> Qle x (inject_Z z))).
Proof.
  intros Hm. split; [|split].
  - intros v y Hv Hy H1 H5.
    assert (Hq : query (B1.searchRecipes_plan params) !! "rating"
                 = Some (Field (Gte (JS.Finite y)))).
    { apply B1_rating_iff. exists v, y. by repeat split. }
    destruct (numeric_entry_sound _ "rating" doc (rating doc) _ eq_refl Hm Hq)
      as (x & Hx & Hle).
    exists x. split; [exact Hx|]. by apply Qle_bool_iff.
  - intros v z Hv Hz Hpos.
    assert (Hq : query (B1.searchRecipes_plan params) !! "prep_time"
                 = Some (Field (Lte (JS.of_int (Some z))))).
    { apply (B1_time_iff params "maxPrepTime" _ (B1_prep_time params)).
      exists v, z. by repeat split. }
    destruct (numeric_entry_sound _ "prep_time" doc (prep_time doc) _ eq_refl Hm Hq)
      as (x & Hx & Hle).
    exists x. split; [exact Hx|]. split; [exact Hle|].
    unfold JS.MAX_SAFE_INTEGER. intros Hs.
    rewrite of_int_safe in Hle by lia. by apply Qle_bool_iff.
  - intros v z Hv Hz Hpos.
    assert (Hq : query (B1.searchRecipes_plan params) !! "cook_time"
                 = Some (Field (Lte (JS.of_int (Some z))))).
    { apply (B1_time_iff params "maxCookTime" _ (B1_cook_time params)).
      exists v, z. by repeat split. }
    destruct (numeric_entry_sound _ "cook_time" doc (cook_time doc) _ eq_refl Hm Hq)
      as (x & Hx & Hle).
    exists x. split; [exact Hx|]. split; [exact Hle|].
    unfold JS.MAX_SAFE_INTEGER. intros Hs.
    rewrite of_int_safe in Hle by lia. by apply Qle_bool_iff.
Qed.

(** X15. In the list handler, with a [maxTotalTime] that parses to the
    integer [z] and a [total_time] that is missing or that [parseFloat]
    does not read, the filter holds [{ $lte: z }] under [total_time] and
    a document that matches the filter has a total time of at most [z];
    [z] is the Number value of the integer, the integer itself when it
    is a safe integer. *)
Theorem max_total_time_sound (params : gmap string string) (doc : Recipe)
  (m : string) (z : Z) :
  params !! "maxTotalTime" = Some m -> JS.parseInt m = Some z ->
  (params !! "total_time" = None
   \/ exists t, params !! "total_time" = Some t /\ JS.parseFloat t = JS.NaN) ->
  matches (query (A.getRecipes_plan params)) doc = true ->
  query (A.getRecipes_plan params) !! "total_time"
    = Some (Field (Lte (JS.of_int (Some z))))
  /\ exists x : Q, total_time doc = Some x
       /\ JS.leb (JS.Finite x) (JS.of_int (Some z)) = true
       /\ (Z.abs z <= JS.MAX_SAFE_INTEGER ->
           query (A.getRecipes_plan params) !! "total_time"
           = Some (Field (Lte (JS.Finite (inject_Z z))))
           /\ Qle x (inject_Z z)).
Proof.
  intros Hmax Hz Htt Hm.
  assert (Hskip : forall q, A.numeric_filter params q "total_time" = q).
  { intros q. unfold A.numeric_filter.
    destruct Htt as [-> | (t & -> & Ht)]; [reflexivity|].
    unfold A.handleNumberFilter. rewrite Ht. simpl.
    by destruct (_ || _). }
  assert (Hq : query (A.getRecipes_plan params) !! "total_time"
               = Some (Field (Lte (JS.of_int (Some z))))).
  { simpl. rewrite numeric_filter_other by discriminate. rewrite Hskip.
    rewrite !numeric_filter_other by discriminate.
    rewrite (threshold_filters_max params m Hmax (parseInt_nonempty m z Hz)).
    rewrite Hz. apply lookup_insert_eq. }
  split; [exact Hq|].
  destruct (numeric_entry_sound _ "total_time" doc (total_time doc) _ eq_refl Hm Hq)
    as (x & Hx & Hle).
  exists x. split; [exact Hx|]. split; [exact Hle|].
  unfold JS.MAX_SAFE_INTEGER. intros Hs. rewrite Hq.
  rewrite of_int_safe in Hle |- * by lia. split; [reflexivity|].
  by apply Qle_bool_iff.
Qed.

End Soundness.

Lemma operator_filters_sound_witness :
  let params := Sample.params [("rating", "4"); ("ratingOp", "lte")] in
  let doc := Sample.recipe "Stew" "Irish" 3 120 in
  matches (H := Sample.store) (query (B2.searchRecipes_plan params)) doc = true
  /\ exists x : Q, rating doc = Some x /\ Qle x 4.
Proof.
  intros params doc.
  assert (Hm : matches (H := Sample.store)
                 (query (B2.searchRecipes_plan params)) doc = true) by reflexivity.
  split; [exact Hm|].
  destruct (operator_filters_sound (H := Sample.store) params doc Hm) as [Hr _].
  destruct (Hr "4" 4%Q eq_refl eq_refl) as (x & Hx & Hle & _).
  exists x. split; [exact Hx|]. by apply Hle.
Defined.

Lemma guarded_thresholds_sound_witness :
  let params := Sample.params [("minRating", "4.5")] in
  let doc := Sample.recipe "Pie" "American" 5 60 in
  matches (H := Sample.store) (query (B1.searchRecipes_plan params)) doc = true
  /\ exists x : Q, rating doc = Some x /\ Qle (9 # 2) x.
Proof.
  intros params doc.
  assert (Hm : matches (H := Sample.store)
                 (query (B1.searchRecipes_plan params)) doc = true) by reflexivity.
  split; [exact Hm|].
  destruct (guarded_thresholds_sound (H := Sample.store) params doc Hm) as [Hr _].
  apply (Hr "4.5" (9 # 2) eq_refl eq_refl); by vm_compute.
Defined.

(** At the edge of the range: [minRating=5.0000000000000001] is read as
    5, the filter is written and only the recipes rated 5 are left. *)
Example minRating_edge_filters :
  let params := Sample.params [("minRating", "5.0000000000000001")] in
  map title (res_data (Sample.body_of
                         (handle (H := Sample.store) SearchV1 params)))
  = ["Pie"].
Proof. reflexivity. Qed.

Lemma max_total_time_sound_witness :
  let params := Sample.params [("maxTotalTime", "30"); ("total_time", "null")] in
  let doc := Sample.recipe "Salad" "Greek" 4 15 in
  (params !! "maxTotalTime" = Some "30" /\ JS.parseInt "30" = Some 30
   /\ matches (H := Sample.store) (query (A.getRecipes_plan params)) doc = true)
  /\ exists x : Q, total_time doc = Some x /\ Qle x 30.
Proof.
  intros params doc.
  assert (Hm : matches (H := Sample.store)
                 (query (A.getRecipes_plan params)) doc = true) by reflexivity.
  split; [by repeat split|].
  destruct (max_total_time_sound (H := Sample.store) params doc "30" 30
              eq_refl eq_refl) as (_ & x & Hx & _ & Hsafe); [|exact Hm|].
  - right. exists "null". split; reflexivity.
  - exists x. split; [exact Hx|]. apply Hsafe. by vm_compute.
Defined.

(** ** Pages *)

(** X16. A handler answers 500 exactly when the store throws, the model
    cannot cast the filter or the store refuses the window; and the
    model can always cast the filter of the two search handlers, whose
    numbers are never [NaN]. *)
Theorem failure_causes `{Store} (e : Endpoint) (params : gmap string string) :
  let p := plan_of e params in
  (handle e params = Status500
   <-> throws (query p) = true \/ castable (query p) = false
       \/ window (skip p) (limit p) (match_set (query p) (sort p)) = None)
  /\ (e <> ListRecipes -> castable (query p) = true).
Proof.
  intros p. subst p. split.
  - rewrite handle_respond. unfold respond, find, countDocuments.
    destruct (throws _); [by split; [left|]|].
    destruct (castable _); [|by split; [right; left|]]. simpl.
    destruct (window _ _ _); split; try done.
    + by intros [?|[?|?]].
    + intros _. by right; right.
  - intros He. apply NaN_free_castable.
    destruct e; [done | apply search_plans_NaN_free..].
Qed.

Lemma failure_causes_witness :
  SearchV2 <> ListRecipes
  /\ castable (query (plan_of SearchV2 (Sample.params [("rating", "high")]))) = true
  /\ (exists body, handle (H := Sample.store) SearchV2
                     (Sample.params [("rating", "high")]) = Status200 body)
  /\ handle (H := Sample.store) ListRecipes (Sample.params [("rating", "high")])
     = Status500.
Proof.
  assert (He : SearchV2 <> ListRecipes) by discriminate.
  split; [exact He|]. split.
  - exact (proj2 (failure_causes (H := Sample.store) SearchV2
                    (Sample.params [("rating", "high")])) He).
  - split; [by eexists | reflexivity].
Defined.

Lemma insert_doc_perm (f : string) (dir : Z) (d : Recipe) (l : list Recipe) :
  Sample.insert_doc f dir d l ≡ₚ d :: l.
Proof.
  induction l as [|x l IH]; simpl; [reflexivity|].
  destruct (if 0 <? dir then _ else _); [reflexivity|].
  rewrite IH. apply Permutation_swap.
Qed.

Lemma sort_by_perm (f : string) (dir : Z) (l : list Recipe) :
  Sample.sort_by f dir l ≡ₚ l.
Proof.
  unfold Sample.sort_by. induction l as [|x l IH]; simpl; [reflexivity|].
  by rewrite insert_doc_perm, IH.
Qed.

(** X17. When the store's sort only reorders, a 200 answer to a request
    with integers [page >= 1] and [limit >= 1] whose limit and offset
    are safe integers carries in [data] only documents that [find] read
    and that match the filter, at most [limit] of them: as many as the
    matching documents beyond the offset, up to [limit].  [total] is
    counted by a second read: when both reads saw the same collection,
    [data] has [min limit (total - offset)] documents, never more than
    [total], and none when the offset is [total] or more. *)
Theorem data_within_match_set `{Store}
  (e : Endpoint) (params : gmap string string) (body : Envelope) (P L : Z) :
  (forall f d l, sort_docs f d l ≡ₚ l) ->
  page (plan_of e params) = JS.Finite (inject_Z P) ->
  limit (plan_of e params) = JS.Finite (inject_Z L) ->
  1 <= P -> 1 <= L <= JS.MAX_SAFE_INTEGER ->
  (P - 1) * L <= JS.MAX_SAFE_INTEGER ->
  handle e params = Status200 body ->
  let plan := plan_of e params in
  let offset := Z.to_nat ((P - 1) * L) in
  (forall doc : Recipe, In doc (res_data body) ->
     In doc documents /\ matches (query plan) doc = true)
  /\ (length (res_data body) <= Z.to_nat L)%nat
  /\ length (res_data body)
     = Nat.min (Z.to_nat L)
         (length (List.filter (matches (query plan)) documents) - offset)
  /\ (counted_documents = documents ->
      length (res_data body) = Nat.min (Z.to_nat L) (res_total body - offset)
      /\ (length (res_data body) <= res_total body)%nat
      /\ ((res_total body <= offset)%nat -> res_data body = [])).
Proof.
  intros Hperm HP HL H1 H2 H3 Hr plan offset. subst plan offset.
  rewrite handle_respond in Hr.
  apply respond_200 in Hr as (_ & Hw & Ht & _).
  rewrite (plan_window e params P L _ HP HL H1 H2 H3) in Hw.
  injection Hw as Hw.
  set (q := query (plan_of e params)) in *.
  set (full := match_set q (sort (plan_of e params))) in *.
  assert (Hfull : full ≡ₚ List.filter (matches q) documents)
    by apply Hperm.
  assert (Hlen : length full = length (List.filter (matches q) documents))
    by (by apply Permutation_length).
  assert (Hdata : length (res_data body)
                  = Nat.min (Z.to_nat L)
                      (length (List.filter (matches q) documents)
                       - Z.to_nat ((P - 1) * L))).
  { by rewrite <- Hw, length_take, length_drop, Hlen. }
  split; [|split; [lia|split; [exact Hdata|]]].
  - intros doc Hin. apply filter_In.
    apply (Permutation_in _ Hfull). apply list_elem_of_In.
    apply list_elem_of_In in Hin. rewrite <- Hw in Hin.
    apply (subseteq_drop (Z.to_nat ((P - 1) * L))).
    by apply (subseteq_take (Z.to_nat L)).
  - intros Hsame. rewrite Hsame in Ht. rewrite Ht.
    split; [exact Hdata|]. split; [lia|].
    intros Hbeyond. apply length_zero_iff_nil. lia.
Qed.

Lemma data_within_match_set_witness :
  let params := Sample.params [("cuisine", "American"); ("limit", "1")] in
  let body := Sample.body_of (handle (H := Sample.store) ListRecipes params) in
  ((forall f d l, sort_docs (Store := Sample.store) f d l ≡ₚ l)
   /\ page (plan_of ListRecipes params) = JS.Finite (inject_Z 1)
   /\ limit (plan_of ListRecipes params) = JS.Finite (inject_Z 1)
   /\ handle (H := Sample.store) ListRecipes params = Status200 body)
  /\ length (res_data body) = 1%nat /\ res_total body = 2%nat.
Proof.
  intros params body.
  assert (Hperm : forall f d l, sort_docs (Store := Sample.store) f d l ≡ₚ l)
    by apply sort_by_perm.
  assert (Hp : page (plan_of ListRecipes params) = JS.Finite (inject_Z 1))
    by reflexivity.
  assert (Hl : limit (plan_of ListRecipes params) = JS.Finite (inject_Z 1))
    by reflexivity.
  assert (Hr : handle (H := Sample.store) ListRecipes params = Status200 body)
    by reflexivity.
  split; [by repeat split|]. split; [|reflexivity].
  destruct (data_within_match_set (H := Sample.store) ListRecipes params body 1 1
              Hperm Hp Hl ltac:(lia) ltac:(vm_compute; split; discriminate)
              ltac:(vm_compute; discriminate) Hr) as (_ & _ & -> & _).
  reflexivity.
Defined.

(** X18. A [page] and a [limit] that are missing, empty, unreadable or
    zero never make a handler fail: the window is then the first ten
    documents, and when the store does not throw and the model can cast
    the filter the answer is 200 with page 1, limit 10 and the first ten
    documents of the sorted match set. *)
Theorem malformed_window_never_fails `{Store}
  (e : Endpoint) (params : gmap string string) :
  let p := plan_of e params in
  let given_page := JS.parseInt (JS.ToString (params !! "page")) in
  let given_limit := JS.parseInt (JS.ToString (params !! "limit")) in
  (given_page = None \/ given_page = Some 0) ->
  (given_limit = None \/ given_limit = Some 0) ->
  page p = JS.Finite 1 /\ limit p = JS.Finite 10 /\ skip p = JS.Finite 0
  /\ (throws (query p) = false -> castable (query p) = true ->
      handle e params
      = Status200
          {| res_success := success_of e;
             res_page := JS.Finite 1; res_limit := JS.Finite 10;
             res_total := length (List.filter (matches (query p)) counted_documents);
             res_data := take 10 (match_set (query p) (sort p)) |}).
Proof.
  intros p given_page given_limit Hp Hl. subst p given_page given_limit.
  assert (Hpage : page (plan_of e params) = JS.Finite (inject_Z 1)).
  { rewrite plan_page. by apply (or_number_of_int _ (JS.Finite 1)). }
  assert (Hlimit : limit (plan_of e params) = JS.Finite (inject_Z 10)).
  { rewrite plan_limit. by apply (or_number_of_int _ (JS.Finite 10)). }
  assert (Hskip : skip (plan_of e params) = JS.Finite 0).
  { by rewrite plan_skip, Hpage, Hlimit. }
  split; [exact Hpage|]. split; [exact Hlimit|]. split; [exact Hskip|].
  intros Ht Hc. rewrite handle_respond.
  rewrite (respond_produces (success_of e) (plan_of e params)
             (take 10 (match_set (query (plan_of e params))
                         (sort (plan_of e params)))) Ht Hc).
  - by rewrite Hpage, Hlimit.
  - rewrite (plan_window e params 1 10 _ Hpage Hlimit); [done|lia| |];
      by vm_compute.
Qed.

Lemma malformed_window_never_fails_witness :
  let params := Sample.params [("page", "first"); ("limit", "0")] in
  (JS.parseInt (JS.ToString (params !! "page")) = None
   /\ JS.parseInt (JS.ToString (params !! "limit")) = Some 0)
  /\ exists body : Envelope,
       handle (H := Sample.store) SearchV2 params = Status200 body
       /\ res_page body = JS.Finite 1 /\ res_limit body = JS.Finite 10
       /\ length (res_data body) = 4%nat.
Proof.
  intros params. split; [by split|].
  destruct (malformed_window_never_fails (H := Sample.store) SearchV2 params
              (or_introl eq_refl) (or_intror eq_refl)) as (_ & _ & _ & Hb).
  eexists. split; [exact (Hb eq_refl eq_refl)|]. by repeat split.
Defined.

(** ** The page component *)

Lemma non_empty_lookup (params : gmap string App.Val) (k : string) (v : App.Val) :
  App.non_empty params !! k = Some v -> params !! k = Some v.
Proof. unfold App.non_empty. by intros [Hk _]%map_lookup_filter_Some. Qed.

Lemma spread_lookup (prev params : gmap string App.Val) (k : string) :
  (App.non_empty params ∪ (params ∪ prev)) !! k
  = match params !! k with Some v => Some v | None => prev !! k end.
Proof.
  rewrite !lookup_union.
  destruct (App.non_empty params !! k) as [v|] eqn:Hn.
  - rewrite (non_empty_lookup _ _ _ Hn). by destruct (prev !! k).
  - destruct (params !! k), (prev !! k); reflexivity.
Qed.

(** X19. The search parameters after [handleSearch] are the new ones
    laid over the previous ones: a key of the new object takes its new
    value, the empty string included, and any other key keeps its
    previous value.  The one exception is [q]: when the new [q] is the
    empty string, the key is removed. *)
Theorem handleSearch_merges (prev params : gmap string App.Val) (k : string) :
  let next := App.handleSearch prev params in
  (params !! "q" = Some (App.VStr "") -> next !! "q" = None)
  /\ (k <> "q" \/ params !! "q" <> Some (App.VStr "") ->
      next !! k = match params !! k with
                  | Some v => Some v
                  | None => prev !! k
                  end).
Proof.
  intros next. subst next. unfold App.handleSearch. split.
  - intros Hq. rewrite bool_decide_eq_true_2 by exact Hq.
    apply lookup_delete_eq.
  - intros Hk. case_bool_decide as Hq.
    + destruct Hk as [Hk|Hk]; [|done].
      rewrite lookup_delete_ne by done. apply spread_lookup.
    + apply spread_lookup.
Qed.

Lemma handleSearch_merges_witness :
  let prev : gmap string App.Val :=
    {[ "q" := App.VStr "pie"; "cuisine" := App.VStr "Greek" ]} in
  let params : gmap string App.Val :=
    {[ "q" := App.VStr ""; "cuisine" := App.VStr ""; "rating" := App.VStr "4" ]} in
  params !! "q" = Some (App.VStr "")
  /\ App.handleSearch prev params !! "q" = None
  /\ App.handleSearch prev params !! "cuisine" = Some (App.VStr "")
  /\ App.handleSearch prev params !! "rating" = Some (App.VStr "4").
Proof.
  intros prev params.
  assert (Hq : params !! "q" = Some (App.VStr "")) by reflexivity.
  split; [exact Hq|].
  split; [exact (proj1 (handleSearch_merges prev params "q") Hq)|].
  split.
  - rewrite (proj2 (handleSearch_merges prev params "cuisine"));
      [reflexivity | left; discriminate].
  - rewrite (proj2 (handleSearch_merges prev params "rating"));
      [reflexivity | left; discriminate].
Defined.

(** X20. After [handleSort] the table is sorted by the column clicked,
    in the order [desc] when that column was already sorted [asc] and in
    the order [asc] in every other case; so a click on another column
    sorts ascending, and repeated clicks on one column alternate between
    the two orders. *)
Theorem handleSort_alternates (st : App.SortState) (property : string) :
  let once := App.handleSort st property in
  let twice := App.handleSort once property in
  App.sortBy once = property
  /\ (App.sortOrder once = "desc"
      <-> App.sortBy st = property /\ App.sortOrder st = "asc")
  /\ (App.sortOrder once = "asc" \/ App.sortOrder once = "desc")
  /\ (App.sortBy st <> property -> App.sortOrder once = "asc")
  /\ App.sortOrder twice <> App.sortOrder once
  /\ App.handleSort twice property = once.
Proof.
  intros once twice. subst once twice. unfold App.handleSort. simpl.
  rewrite String.eqb_refl. simpl.
  destruct (String.eqb_spec (App.sortBy st) property) as [Hs|Hs];
    destruct (String.eqb_spec (App.sortOrder st) "asc") as [Ho|Ho];
    simpl; repeat split; try done; try (by intros [? ?]); auto.
Qed.

(** ** Text search *)

Lemma list_or_lookup (params : gmap string string) :
  query (A.getRecipes_plan params) !! "$or"
  = if JS.truthy (params !! "q")
    then Some (Or [("title", Regex (JS.ToString (params !! "q")) "i");
                   ("cuisine", Regex (JS.ToString (params !! "q")) "i");
                   ("description", Regex (JS.ToString (params !! "q")) "i")])
    else None.
Proof.
  simpl. rewrite !numeric_filter_other by discriminate.
  unfold A.threshold_filters. rewrite !insert_if_other by discriminate.
  rewrite insert_if_same. by destruct (JS.truthy (params !! "q")).
Qed.

Lemma search_or_lookup (params : gmap string string) :
  query (B1.searchRecipes_plan params) !! "$or"
  = if JS.truthy (params !! "q")
    then Some (Or [("title", Regex (JS.ToString (params !! "q")) "i");
                   ("description", Regex (JS.ToString (params !! "q")) "i")])
    else None.
Proof.
  simpl.
  destruct (JS.truthy (params !! "maxCookTime"));
    destruct (JS.truthy (params !! "maxPrepTime"));
    destruct (JS.truthy (params !! "minRating"));
    rewrite !insert_if_other by discriminate;
    rewrite insert_if_same; by destruct (JS.truthy (params !! "q")).
Qed.

(** X21. With a non-empty [q], a document that matches the filter of the
    list handler satisfies the case-insensitive regular expression [q] on
    its title, its cuisine or its description; for the first search
    handler it is the title or the description, the cuisine not being
    looked at. *)
Theorem text_search_sound `{Store}
  (params : gmap string string) (v : string) (doc : Recipe) :
  params !! "q" = Some v -> v <> "" ->
  (matches (query (A.getRecipes_plan params)) doc = true ->
   string_holds (Regex v "i") (title doc) = true
   \/ string_holds (Regex v "i") (cuisine doc) = true
   \/ exists d, description doc = Some d /\ string_holds (Regex v "i") d = true)
  /\ (matches (query (B1.searchRecipes_plan params)) doc = true ->
      string_holds (Regex v "i") (title doc) = true
      \/ exists d, description doc = Some d /\ string_holds (Regex v "i") d = true).
Proof.
  intros Hv Hne.
  assert (Ht : JS.truthy (params !! "q") = true)
    by (rewrite Hv; by destruct v).
  assert (Hdesc : forall c, cond_holds c (field_value "description" doc) = true ->
            exists d, description doc = Some d /\ string_holds c d = true).
  { intros c. change (field_value "description" doc) with (of_text (description doc)).
    destruct (description doc) as [d|]; simpl; [eauto | done]. }
  split; intros Hm.
  - pose proof (list_or_lookup params) as Hq. rewrite Ht, Hv in Hq.
    pose proof (matches_lookup _ _ _ _ Hm Hq) as He.
    cbn [entry_holds existsb fst snd JS.ToString] in He.
    apply orb_true_iff in He as [He|He]; [by left|].
    apply orb_true_iff in He as [He|He]; [by right; left|].
    apply orb_true_iff in He as [He|He]; [|done].
    right; right. by apply Hdesc.
  - pose proof (search_or_lookup params) as Hq. rewrite Ht, Hv in Hq.
    pose proof (matches_lookup _ _ _ _ Hm Hq) as He.
    cbn [entry_holds existsb fst snd JS.ToString] in He.
    apply orb_true_iff in He as [He|He]; [by left|].
    apply orb_true_iff in He as [He|He]; [|done].
    right. by apply Hdesc.
Qed.

Lemma text_search_sound_witness :
  let params := Sample.params [("q", "Pie")] in
  let doc := Sample.recipe "Pie" "American" 5 60 in
  (params !! "q" = Some "Pie" /\ "Pie" <> ""
   /\ matches (H := Sample.store) (query (B1.searchRecipes_plan params)) doc = true)
  /\ (string_holds (Store := Sample.store) (Regex "Pie" "i") (title doc) = true
      \/ exists d, description doc = Some d
           /\ string_holds (Store := Sample.store) (Regex "Pie" "i") d = true).
Proof.
  intros params doc.
  assert (Hm : matches (H := Sample.store)
                 (query (B1.searchRecipes_plan params)) doc = true) by reflexivity.
  split; [by repeat split|].
  exact (proj2 (text_search_sound (H := Sample.store) params "Pie" doc
                  eq_refl ltac:(discriminate)) Hm).
Defined.

Lemma list_rating_states_witness :
  let params := Sample.params [("rating", "undefined")] in
  query (A.getRecipes_plan params) !! "rating" = Some (Field (Gte JS.NaN))
  /\ forall n, query (A.getRecipes_plan params) !! "rating" = Some (Field (Gte n))
       -> n = JS.NaN.
Proof.
  intros params. split; [reflexivity|].
  exact (proj2 (list_rating_states params)).
Defined.

Lemma handleSort_alternates_witness :
  let st := {| App.sortBy := "rating"; App.sortOrder := "desc" |} in
  App.sortBy st <> "title"
  /\ App.sortOrder (App.handleSort st "title") = "asc"
  /\ App.sortOrder (App.handleSort (App.handleSort st "title") "title") = "desc".
Proof.
  intros st.
  assert (Hne : App.sortBy st <> "title") by discriminate.
  split; [exact Hne|].
  destruct (handleSort_alternates st "title") as (_ & _ & _ & Hasc & _).
  split; [exact (Hasc Hne) | reflexivity].
Defined.
